(** * Shallow embedding of the R7 SageMaker / Snowflake notebooks

    The repository is a set of Jupyter notebooks.  Each notebook is a list of
    code cells run one after another; a cell is a sequence of calls into an
    external SDK (SageMaker, boto3, Snowflake connector, numpy, shell commands)
    plus a little local Python.  The modules below embed the parts of those
    cells that the specification talks about. *)

From Stdlib Require Import List String Ascii Bool ZArith Lia.
Import ListNotations.
Open Scope string_scope.
Open Scope list_scope.

(** ** Cells and exceptions

    A cell body is a Python statement sequence.  The only constructs that
    matter for exceptions are SDK calls, sequencing and [try/except].  An SDK
    environment says, for every call, whether it returns ([None]) or raises an
    exception of a given class ([Some cls]). *)
Module Cells.

Inductive stmt : Type :=
| Call (f : string)
| Seq (s1 s2 : stmt)
| TryExcept (body : stmt) (exn : string) (handler : stmt).

(** [None]: the cell finished; [Some cls]: an exception of class [cls]
    escaped the cell. *)
Definition outcome := option string.

Definition sdk_env := string -> option string.

Fixpoint exec (env : sdk_env) (s : stmt) : outcome :=
  match s with
  | Call f => env f
  | Seq s1 s2 =>
      match exec env s1 with
      | None => exec env s2
      | Some e => Some e
      end
  | TryExcept b x h =>
      match exec env b with
      | None => None
      | Some e => if String.eqb e x then exec env h else Some e
      end
  end.

(** Python's [a; b; c] as nested [Seq]. *)
Fixpoint block (l : list stmt) : stmt :=
  match l with
  | [] => Call "pass"
  | [s] => s
  | s :: r => Seq s (block r)
  end.

Definition calls_block (l : list string) : stmt := block (map Call l).

Fixpoint try_free (s : stmt) : bool :=
  match s with
  | Call _ => true
  | Seq s1 s2 => try_free s1 && try_free s2
  | TryExcept _ _ _ => false
  end.

(** The SDK calls of a statement, in execution order. *)
Fixpoint calls (s : stmt) : list string :=
  match s with
  | Call f => [f]
  | Seq s1 s2 => calls s1 ++ calls s2
  | TryExcept b _ h => calls b ++ calls h
  end.

(** The exception of the first call that raises, if any. *)
Fixpoint first_raise (env : sdk_env) (l : list string) : outcome :=
  match l with
  | [] => None
  | f :: r =>
      match env f with
      | None => first_raise env r
      | Some e => Some e
      end
  end.

(** *** Data-preparation notebook (pytorch-workflow-1) *)

Definition prep_setup_cell : stmt :=
  block [ Call "sagemaker.Session";
          Call "sess.default_bucket";
          TryExcept (Call "sagemaker.get_execution_role") "ValueError"
            (block [Call "boto3.client('iam')"; Call "iam.get_role"]);
          Call "os.makedirs(data)"; Call "os.makedirs(data/train)";
          Call "os.makedirs(data/test)"; Call "os.makedirs(data/raw)";
          Call "os.makedirs(model)" ].

Definition nb_prep : list stmt :=
  [ prep_setup_cell;
    calls_block ["load_boston"; "np.save(x_train)"; "np.save(x_test)";
                 "np.save(y_train)"; "np.save(y_test)"; "sess.upload_data"];
    calls_block ["%%writefile preprocessing.py"];
    calls_block ["SKLearnProcessor"];
    calls_block ["sklearn_processor.run"; "sklearn_processor.jobs[-1].describe"];
    calls_block ["!aws s3 cp train"; "!aws s3 cp test"];
    calls_block ["%store"] ].

(** *** Training notebook (pytorch-workflow-2) *)

Definition nb_train : list stmt :=
  [ calls_block ["%store -r"];
    calls_block ["!wget local_mode_setup.sh"; "!wget daemon.json";
                 "!bash local_mode_setup.sh"];
    calls_block ["sagemaker.Session"; "PyTorch(local)"];
    calls_block ["local_estimator.fit"; "local_estimator.model_data"];
    calls_block ["!pip install sagemaker-experiments"];
    calls_block ["boto3.client('sagemaker')"; "Experiment.create"];
    calls_block ["sess.upload_data(train)"; "sess.upload_data(test)"];
    calls_block ["PyTorch(hosted)"];
    calls_block ["estimator.fit(hosted)"];
    calls_block ["ExperimentAnalytics"; "trial_component_analytics.dataframe"];
    calls_block ["estimator.latest_training_job"; "estimator.model_data"];
    calls_block ["!aws s3 cp model"];
    calls_block ["!tar -xvzf"];
    calls_block ["PyTorch(spot)"];
    calls_block ["estimator.fit(spot)"];
    calls_block ["ExperimentAnalytics"; "trial_component_analytics.dataframe"];
    calls_block ["IntegerParameter"; "ContinuousParameter"];
    calls_block ["HyperparameterTuner"; "tuner.fit"; "tuner.wait"];
    calls_block ["HyperparameterTuningJobAnalytics"; "tuner_metrics.dataframe"];
    calls_block ["tuner_metrics.dataframe"];
    calls_block ["%store"] ].

(** *** Orchestration notebook (Step Functions) *)

Definition nb_orch : list stmt :=
  [ calls_block ["!pip install stepfunctions"];
    calls_block ["%store -r"];
    calls_block ["uuid4"];
    calls_block ["ExecutionInput"];
    calls_block ["sagemaker.Session"; "get_execution_role"; "SKLearnProcessor"];
    calls_block ["sess.upload_data(preprocessing.py)"; "ProcessingStep"];
    calls_block ["PyTorch(**estimator_parameters)"; "steps.TrainingStep"];
    calls_block ["training_step.get_expected_model"; "steps.ModelStep"];
    calls_block ["training_step.get_expected_model"];
    calls_block ["steps.EndpointConfigStep"];
    calls_block ["steps.EndpointStep"];
    calls_block ["steps.Chain"];
    calls_block ["Workflow"];
    calls_block ["workflow.definition.to_json"];
    calls_block ["workflow.render_graph"];
    calls_block ["workflow.create"];
    calls_block ["workflow.execute"];
    calls_block ["workflow.list_executions"];
    calls_block ["execution.render_progress"];
    calls_block ["execution.list_events"];
    calls_block ["PyTorchPredictor"; "workflow_predictor.predict"];
    calls_block ["workflow_predictor.delete_endpoint"] ].

(** *** Container test notebook (GET /ping, POST /invocations) *)

Definition nb_byoc : list stmt :=
  [ calls_block ["!pip install --upgrade sagemaker"];
    calls_block ["request.urlopen(/ping)"; "resp.getcode"];
    calls_block ["CSVSerializer"; "csv_serializer.serialize";
                 "request.urlopen(/invocations)"; "resp.read"] ].

(** *** Warehouse connector notebook (Snowflake) *)

Definition nb_connect : list stmt :=
  [ calls_block ["%%bash pip/yum install"];
    calls_block ["snowflake.connector.connect"];
    calls_block ["ctx.cursor"];
    calls_block ["cur.execute"];
    calls_block ["cur.fetch_pandas_all"];
    calls_block ["df.head"];
    calls_block ["random.seed"; "random.randint"; "df.loc.__setitem__"; "df.head"];
    calls_block ["write_pandas"] ].

(** *** Deployment notebook (pytorch-workflow-3) *)

Definition nb_deploy : list stmt :=
  [ calls_block ["%store -r"];
    calls_block ["PyTorchModel(local)"; "local_model.deploy"];
    calls_block ["local_predictor.predict"];
    calls_block ["local_predictor.predict"];
    calls_block ["local_predictor.delete_endpoint"];
    calls_block ["PyTorchModel(hosted)"; "model.deploy"];
    calls_block ["predictor.predict"];
    calls_block ["predictor.predict"];
    calls_block ["PyTorch(**estimator_parameters)"; "HyperparameterTuner";
                 "tuner.attach"; "tuner.deploy"];
    calls_block ["tuning_predictor.predict"];
    calls_block ["tuner.best_training_job"];
    calls_block ["!pip install awscli"];
    calls_block ["!aws s3 cp model1"; "!aws s3 cp model2"];
    calls_block ["sagemaker.Session"; "MultiDataModel"; "mme.deploy"];
    calls_block ["!aws s3 ls"];
    calls_block ["mme_predictor.predict(model1)"];
    calls_block ["mme_predictor.predict(model2)"];
    calls_block ["!aws s3 cp model3"];
    calls_block ["!aws s3 ls"];
    calls_block ["mme_predictor.predict(model3)"];
    calls_block ["PyTorchModel(pytorch-model)"; "model._create_sagemaker_model";
                 "production_variant"; "tuner.best_training_job";
                 "production_variant"];
    calls_block ["DataCaptureConfig"; "data_capture_config._to_request_dict"];
    calls_block ["sess.endpoint_from_production_variants"];
    calls_block ["np.load"; "np.savetxt"; "!aws s3 cp train.csv";
                 "DefaultModelMonitor"; "my_default_monitor.suggest_baseline"];
    calls_block ["my_default_monitor.baseline_statistics";
                 "my_default_monitor.suggested_constraints";
                 "my_default_monitor.create_monitoring_schedule";
                 "my_default_monitor.describe_schedule"];
    calls_block ["RealTimePredictor"];
    calls_block ["prodvar_predictor.predict(Variant1)"];
    calls_block ["prodvar_predictor.predict(Variant2)"];
    calls_block ["!aws s3 cp --recursive Variant1"];
    calls_block ["os.walk"; "open"; "json.loads"];
    calls_block ["!aws s3 cp --recursive Variant2"];
    calls_block ["os.walk"; "open"; "json.loads"];
    calls_block ["scipy.stats.levene"];
    calls_block ["boto3.client('sagemaker')";
                 "sm.update_endpoint_weights_and_capacities"];
    calls_block ["sagemaker.Session"; "RealTimePredictor"; "predictor.predict"];
    calls_block ["boto3.client('sagemaker-runtime')"; "sm_runtime.invoke_endpoint";
                 "json.loads"];
    calls_block ["predictor.delete_endpoint"; "tuning_predictor.delete_endpoint";
                 "mme_predictor.delete_endpoint";
                 "!aws sagemaker delete-monitoring-schedule"] ].

Definition notebooks : list (list stmt) :=
  [nb_connect; nb_prep; nb_train; nb_orch; nb_deploy; nb_byoc].

(** An environment where the notebook is not running under a SageMaker
    execution role: [get_execution_role] raises [ValueError], every other
    call returns. *)
Definition env_no_role : sdk_env :=
  fun f => if String.eqb f "sagemaker.get_execution_role"
           then Some "ValueError" else None.

Fixpoint stmt_eqb (s t : stmt) : bool :=
  match s, t with
  | Call f, Call g => String.eqb f g
  | Seq a1 a2, Seq b1 b2 => stmt_eqb a1 b1 && stmt_eqb a2 b2
  | TryExcept a x h, TryExcept b y k =>
      stmt_eqb a b && String.eqb x y && stmt_eqb h k
  | _, _ => false
  end.

Definition cell_ok (c : stmt) : bool := stmt_eqb c prep_setup_cell || try_free c.

End Cells.

(** ** Serving resources of the deployment notebook

    The state records the endpoints, endpoint configurations and monitoring
    schedules that exist on the platform, and which endpoint each Python
    predictor variable is bound to.  [deploy] (and
    [endpoint_from_production_variants]) create an endpoint together with an
    endpoint configuration of the same name; [delete_endpoint] looks the
    endpoint up through the predictor object it is called on. *)
Module Deploy.

Record dstate : Type := mkD {
  endpoints : list string;
  endpoint_configs : list string;
  schedules : list string;
  preds : list (string * string)  (* predictor variable -> endpoint name *)
}.

Inductive action : Type :=
| DeployTo (var endpoint_name : string)
| BindPredictor (var endpoint_name : string)
| EndpointFromVariants (endpoint_name : string)
| CreateSchedule (schedule_name : string)
| DeleteEndpointOf (var : string) (delete_endpoint_config : bool)
| DeleteSchedule (schedule_name : string).

Definition init : dstate := mkD [] [] [] [].

Definition bind (v e : string) (p : list (string * string)) :=
  (v, e) :: p.

Fixpoint lookup_var (v : string) (p : list (string * string)) : option string :=
  match p with
  | [] => None
  | (w, e) :: r => if String.eqb v w then Some e else lookup_var v r
  end.

Definition remove_name (x : string) (l : list string) : list string :=
  filter (fun y => negb (String.eqb x y)) l.

Definition step (s : dstate) (a : action) : dstate :=
  match a with
  | DeployTo v e =>
      mkD (endpoints s ++ [e]) (endpoint_configs s ++ [e]) (schedules s)
          (bind v e (preds s))
  | BindPredictor v e =>
      mkD (endpoints s) (endpoint_configs s) (schedules s) (bind v e (preds s))
  | EndpointFromVariants e =>
      mkD (endpoints s ++ [e]) (endpoint_configs s ++ [e]) (schedules s) (preds s)
  | CreateSchedule n =>
      mkD (endpoints s) (endpoint_configs s) (schedules s ++ [n]) (preds s)
  | DeleteEndpointOf v dc =>
      match lookup_var v (preds s) with
      | None => s
      | Some e =>
          mkD (remove_name e (endpoints s))
              (if dc then remove_name e (endpoint_configs s) else endpoint_configs s)
              (schedules s) (preds s)
      end
  | DeleteSchedule n =>
      mkD (endpoints s) (endpoint_configs s) (remove_name n (schedules s)) (preds s)
  end.

Definition run (s : dstate) (l : list action) : dstate := fold_left step l s.

(** The local-mode endpoint gets an SDK-generated name. *)
Definition local_endpoint := "<local-mode endpoint>".
Definition monitor_schedule_name := "pytorch-boston-housing-model-monitor-schedule".
Definition prodvar_endpoint_name := "pytorch-production-variants".

(** Cells before the Clean Up section, in notebook order. *)
Definition before_cleanup : list action :=
  [ DeployTo "local_predictor" local_endpoint;
    DeleteEndpointOf "local_predictor" true;
    DeployTo "predictor" "pytorch-housing";
    DeployTo "tuning_predictor" "pytorch-housing-auto";
    DeployTo "mme_predictor" "mme-pytorch";
    EndpointFromVariants prodvar_endpoint_name;
    CreateSchedule monitor_schedule_name;
    BindPredictor "prodvar_predictor" prodvar_endpoint_name;
    (* Invoking SageMaker Endpoints: predictor = RealTimePredictor(endpoint='pytorch-housing') *)
    BindPredictor "predictor" "pytorch-housing" ].

(** The Clean Up cell.  Its last line is the comment
    [# Manually delete production variant endpoint (for now)]. *)
Definition cleanup : list action :=
  [ DeleteEndpointOf "predictor" true;
    DeleteEndpointOf "tuning_predictor" true;
    DeleteEndpointOf "mme_predictor" true;
    DeleteSchedule monitor_schedule_name ].

Definition deploy_notebook : list action := before_cleanup ++ cleanup.

End Deploy.

(** ** The warehouse connector notebook's dataframe

    A pandas DataFrame with its column labels, its row index and its rows.
    [loc_set] is [df.loc[r, c] = v]: an existing cell is overwritten; an
    absent row or column label enlarges the frame with missing values. *)
Module Frame.
Open Scope Z_scope.
Open Scope list_scope.

Inductive value : Type :=
| VInt (z : Z)
| VStr (s : string)
| VNull.

Record frame : Type := mkF {
  columns : list string;
  index : list Z;
  data : list (list value)
}.

Fixpoint index_of {A} (eqb : A -> A -> bool) (x : A) (l : list A) : option nat :=
  match l with
  | [] => None
  | y :: r => if eqb x y then Some O else option_map S (index_of eqb x r)
  end.

Fixpoint upd {A} (l : list A) (i : nat) (v : A) : list A :=
  match l, i with
  | [], _ => []
  | _ :: r, O => v :: r
  | x :: r, S j => x :: upd r j v
  end.

Definition cell (f : frame) (r : Z) (c : string) : option value :=
  match index_of Z.eqb r (index f), index_of String.eqb c (columns f) with
  | Some i, Some j =>
      match nth_error (data f) i with
      | Some row => nth_error row j
      | None => None
      end
  | _, _ => None
  end.

Definition loc_set (f : frame) (r : Z) (c : string) (v : value) : frame :=
  match index_of Z.eqb r (index f), index_of String.eqb c (columns f) with
  | Some i, Some j =>
      mkF (columns f) (index f)
          (upd (data f) i (upd (nth i (data f) []) j v))
  | None, Some j =>
      mkF (columns f) (index f ++ [r])
          (data f ++ [upd (repeat VNull (List.length (columns f))) j v])
  | Some i, None =>
      mkF (columns f ++ [c]) (index f)
          (upd (map (fun row => row ++ [VNull]) (data f)) i
               (nth i (data f) [] ++ [v]))
  | None, None =>
      mkF (columns f ++ [c]) (index f ++ [r])
          (map (fun row => row ++ [VNull]) (data f)
           ++ [repeat VNull (List.length (columns f)) ++ [v]])
  end.

(** [cur.fetch_pandas_all()]: the result set with a default RangeIndex. *)
Definition fetch_pandas_all (cols : list string) (rows : list (list value)) : frame :=
  mkF cols (map Z.of_nat (seq O (List.length rows))) rows.

(** CPython's [random.randint(a, b)] is [a + _randbelow(b - a + 1)], and
    [_randbelow(n)] draws [getrandbits(k)] with [k = n.bit_length()] until the
    draw is below [n].  [getrandbits(k)] for [k <= 32] is the top [k] bits of
    the next 32-bit Mersenne Twister output; [draws] are those outputs.
    [None]: the given draws ran out before one was accepted. *)
Fixpoint randbelow (n : Z) (draws : list Z) : option Z :=
  match draws with
  | [] => None
  | w :: rest =>
      let k := Z.log2 n + 1 in
      let r := Z.shiftr (Z.land w (2 ^ 32 - 1)) (32 - k) in
      if r <? n then Some r else randbelow n rest
  end.

Definition randint (a b : Z) (draws : list Z) : option Z :=
  option_map (fun r => a + r) (randbelow (b - a + 1) draws).

(** The mutation cell: [temp = random.randint(0,100)];
    [df.loc[0,('X0')] = temp].  The result is [temp] and the frame that the
    next cell passes to [write_pandas]. *)
Definition mutate_cell (df : frame) (draws : list Z) : option (Z * frame) :=
  match randint 0 100 draws with
  | Some temp => Some (temp, loc_set df 0 "X0" (VInt temp))
  | None => None
  end.

End Frame.

(** ** The stand-alone preprocessing script ([preprocessing.py])

    The script runs in the [SKLearnProcessor] container with
    [framework_version='0.20.0'].  Arrays are float64: matrices are lists of
    rows of binary64 floats ([PrimFloat]), every operation rounding to
    nearest-even.  [StandardScaler().fit_transform(raw)] is [fit(raw)] (which
    resets the scaler, so nothing carries over between files) followed by
    [transform(raw)], computed in the order scikit-learn 0.20.0 and numpy do
    it. *)
From Stdlib Require Import Reals Lra Psatz.
From Stdlib Require Import Floats.
From Stdlib Require Uint63.

Module Preprocess.
Local Open Scope float_scope.

Definition matrix := list (list float).

Definition n_features (m : matrix) : nat := List.length (hd [] m).

Definition column (m : matrix) (j : nat) : list float := map (fun row => nth j row 0) m.

(** Conversion of a sample count (an [int64]) to float64. *)
Definition of_nat (n : nat) : float := of_uint63 (Uint63.of_Z (Z.of_nat n)).

(** numpy's [pairwise_sum] over a contiguous run of doubles: fewer than 8
    elements are added in order from [0.]; up to 128, eight running sums
    [r[0..7]] start at [a[0..7]], take each following block of 8, are combined
    as [((r0+r1)+(r2+r3))+((r4+r5)+(r6+r7))], and the remaining elements are
    added in order; longer runs are split at [n/2] rounded down to a multiple
    of 8.  [fuel] bounds the recursion ([List.length a] suffices). *)
Fixpoint acc8 (fuel : nat) (r a : list float) : list float * list float :=
  match fuel with
  | O => (r, a)
  | S fuel =>
      if (8 <=? List.length a)%nat
      then acc8 fuel (map (fun '(x, y) => x + y) (combine r (firstn 8 a))) (skipn 8 a)
      else (r, a)
  end.

Definition tree8 (r : list float) : float :=
  match r with
  | [r0; r1; r2; r3; r4; r5; r6; r7] => ((r0 + r1) + (r2 + r3)) + ((r4 + r5) + (r6 + r7))
  | _ => 0
  end.

Fixpoint pairwise_sum (fuel : nat) (a : list float) : float :=
  let n := List.length a in
  if (n <? 8)%nat then fold_left PrimFloat.add a 0
  else if (n <=? 128)%nat then
    let '(r, rest) := acc8 n (firstn 8 a) (skipn 8 a) in
    fold_left PrimFloat.add rest (tree8 r)
  else match fuel with
       | O => fold_left PrimFloat.add a 0
       | S fuel =>
           let n2 := (Nat.div n 2 - Nat.modulo (Nat.div n 2) 8)%nat in
           pairwise_sum fuel (firstn n2 a) + pairwise_sum fuel (skipn n2 a)
       end.

(** [np.sum(X, axis=0)] for one column of a C-ordered [X] with [ncols]
    columns: the accumulator starts at [0.0]; with several columns the rows
    are added one after the other, with a single column the reduction is one
    contiguous [pairwise_sum] added to [0.0]. *)
Definition col_sum (ncols : nat) (col : list float) : float :=
  if (ncols =? 1)%nat then 0 + pairwise_sum (List.length col) col
  else fold_left PrimFloat.add col 0.

Definition nan_to_zero (x : float) : float := if is_nan x then 0 else x.

(** [np.sum(~np.isnan(X), axis=0)] for one column. *)
Definition count (col : list float) : nat :=
  List.length (filter (fun x => negb (is_nan x)) col).

(** [np.nanvar(X, axis=0)] for one column: NaNs replaced by [0], [avg =
    sum / cnt], deviations [x - avg] (0 at the NaNs), squared, summed and
    divided by [cnt]. *)
Definition nanvar (ncols : nat) (col : list float) : float :=
  let c := of_nat (count col) in
  let avg := col_sum ncols (map nan_to_zero col) / c in
  let dev := map (fun x => if is_nan x then 0 else x - avg) col in
  col_sum ncols (map (fun d => d * d) dev) / c.

(** The first [partial_fit] of a reset scaler, for one column:
    [_incremental_mean_and_var(X, .0, .0, .0)] gives [mean_ = (0.0*0.0 +
    nansum) / (0.0 + count)] and [var_ = (0.0*0.0 + nanvar * count) /
    (0.0 + count)]; then [scale_ = _handle_zeros_in_scale(np.sqrt(var_))],
    which replaces a scale [== 0.0] by [1.0]. *)
Definition col_stats (ncols : nat) (col : list float) : float * float :=
  let cnt := of_nat (count col) in
  let new_sum := col_sum ncols (map nan_to_zero col) in
  let mean := (0 * 0 + new_sum) / (0 + cnt) in
  let var := (0 * 0 + nanvar ncols col * cnt) / (0 + cnt) in
  let s := sqrt var in
  (mean, if s =? 0 then 1 else s).

Definition rectangular_b (m : matrix) : bool :=
  forallb (fun row => (List.length row =? n_features m)%nat) m.

(** [check_array(X, force_all_finite='allow-nan')] raises [ValueError] for
    a ragged list of rows, for an array with 0 samples or 0 features, and for
    an infinite entry (NaN is let through). *)
Definition check_array (m : matrix) : bool :=
  negb ((List.length m =? 0)%nat || (n_features m =? 0)%nat || negb (rectangular_b m)
        || existsb (existsb is_infinity) m).

(** [StandardScaler().fit_transform(raw)]: [None] is the [ValueError] of
    [check_array]; otherwise [X -= mean_; X /= scale_]. *)
Definition fit_transform (m : matrix) : option matrix :=
  if check_array m then
    let ncols := n_features m in
    let stats := map (fun j => col_stats ncols (column m j)) (seq 0 ncols) in
    Some (map (fun row => map (fun '(x, (mu, s)) => (x - mu) / s) (combine row stats)) m)
  else None.

(** Python's [needle in hay] on strings. *)
Fixpoint contains (needle hay : string) : bool :=
  String.prefix needle hay ||
  match hay with
  | EmptyString => false
  | String _ rest => contains needle rest
  end.

Fixpoint last_char (s : string) : option ascii :=
  match s with
  | EmptyString => None
  | String c EmptyString => Some c
  | String _ rest => last_char rest
  end.

(** [os.path.join(a, b)] (posixpath, two arguments). *)
Definition path_join (a b : string) : string :=
  if String.prefix "/" b then b
  else match last_char a with
       | None => b
       | Some "/"%char => String.append a b
       | Some _ => String.append a (String.append "/" b)
       end.

Definition train_out : string := path_join "/opt/ml/processing/train" "x_train.npy".
Definition test_out : string := path_join "/opt/ml/processing/test" "x_test.npy".

(** The loop body: [raw = np.load(file)], [transformed =
    scaler.fit_transform(raw)], then [np.save] to the train or test output;
    [None] when [fit_transform] raises.  [file] pairs a globbed path with the
    array [np.load] returns for it. *)
Definition process_file (file : string * matrix) : option (string * matrix) :=
  let '(path, raw) := file in
  match fit_transform raw with
  | None => None
  | Some transformed =>
      if contains "train" path then Some (train_out, transformed)
      else Some (test_out, transformed)
  end.

(** The loop [for file in input_files]: the [np.save] calls made, in order,
    and the exception that ends the script, if any ([ValueError] from the
    first file [fit_transform] rejects; later files are not processed). *)
Fixpoint preprocessing (files : list (string * matrix))
    : list (string * matrix) * option string :=
  match files with
  | [] => ([], None)
  | file :: rest =>
      match process_file file with
      | None => ([], Some "ValueError")
      | Some save => let '(saves, exn) := preprocessing rest in (save :: saves, exn)
      end
  end.

Definition rectangular (m : matrix) : Prop :=
  Forall (fun row => List.length row = n_features m) m.

End Preprocess.

(** ** The train/test split of the data-preparation notebook

    [training_index = math.floor(.8 * boston['data'].shape[0])], then
    [x[:training_index]], [x[training_index:]] and the same for [y].  The
    literal [.8] is read as the exact rational 8/10. *)
From Stdlib Require Import QArith Qround.

Module Split.

Definition training_index (n : Z) : Z := Qfloor ((8 # 10) * inject_Z n).

(** numpy slices [a[:k]] and [a[k:]] for [0 <= k]. *)
Definition slice_to {A} (a : list A) (k : Z) : list A := firstn (Z.to_nat k) a.
Definition slice_from {A} (a : list A) (k : Z) : list A := skipn (Z.to_nat k) a.

Definition split {A B} (x : list A) (y : list B) :
    (list A * list B) * (list A * list B) :=
  let k := training_index (Z.of_nat (List.length x)) in
  ((slice_to x k, slice_to y k), (slice_from x k, slice_from y k)).

End Split.

(** ** The orchestration workflow definition

    Each step carries its state name and the names of the steps whose results
    its arguments use: the training data is the preprocessing step's output
    location, the model wraps [training_step.get_expected_model()], and the
    endpoint configuration and endpoint use the model and configuration named
    [execution_input['ModelName']] created by the steps before them.
    [steps.Chain] links every step to the next one. *)
Module Workflow.

Record wstep : Type := mkStep { step_name : string; uses : list string }.

Definition preprocessing_step := mkStep "Preprocessing" [].
Definition training_step := mkStep "Model Training" ["Preprocessing"].
Definition model_step := mkStep "Save Model" ["Model Training"].
Definition endpoint_config_step :=
  mkStep "Create Model Endpoint Config" ["Save Model"].
Definition endpoint_step :=
  mkStep "Create Inference Endpoint" ["Create Model Endpoint Config"].

(** A state of the generated state machine: its name and its [Next]
    ([None] for [End: true]). *)
Record state : Type := mkState { st_name : string; st_next : option string }.

Fixpoint chain (l : list wstep) : list state :=
  match l with
  | [] => []
  | [s] => [mkState (step_name s) None]
  | s :: ((t :: _) as r) => mkState (step_name s) (Some (step_name t)) :: chain r
  end.

Definition workflow_definition : list wstep :=
  [preprocessing_step; training_step; model_step; endpoint_config_step;
   endpoint_step].

Definition start_at (l : list state) : option string :=
  option_map st_name (hd_error l).

Fixpoint find_state (n : string) (l : list state) : option state :=
  match l with
  | [] => None
  | s :: r => if String.eqb n (st_name s) then Some s else find_state n r
  end.

(** The states visited by an execution from [StartAt], at most [fuel]. *)
Fixpoint visit (fuel : nat) (cur : option string) (l : list state) : list string :=
  match fuel, cur with
  | O, _ | _, None => []
  | S f, Some n =>
      match find_state n l with
      | None => []
      | Some s => n :: visit f (st_next s) l
      end
  end.

Fixpoint position (n : string) (l : list string) : option nat :=
  match l with
  | [] => None
  | m :: r => if String.eqb n m then Some O else option_map S (position n r)
  end.

Definition before (a b : string) (order : list string) : Prop :=
  match position a order, position b order with
  | Some i, Some j => (i < j)%nat
  | _, _ => False
  end.

End Workflow.

(** ** Estimator parameter dictionaries of the training notebook

    Python values as they appear in the dictionaries.  A float literal is kept
    as its source text; [role], [bucket] and [s3_prefix] are the values
    restored with [%store -r]. *)
Module Config.
Open Scope Z_scope.
Local Set Warnings "-register-all".

Inductive pyval : Type :=
| PStr (s : string)
| PInt (z : Z)
| PFloat (literal : string)
| PBool (b : bool)
| PList (l : list pyval)
| PDict (d : list (string * pyval)).

Fixpoint dict_get (k : string) (d : list (string * pyval)) : option pyval :=
  match d with
  | [] => None
  | (k', v) :: r => if String.eqb k k' then Some v else dict_get k r
  end.

Definition get (k : string) (v : pyval) : option pyval :=
  match v with
  | PDict d => dict_get k d
  | _ => None
  end.

Definition metric_definitions : pyval :=
  PList [PDict [("Name", PStr "loss"); ("Regex", PStr " loss: ([0-9\.]+)")];
         PDict [("Name", PStr "val_loss"); ("Regex", PStr "Test MSE: ([0-9\.]+)")]].

(** ["{}".format(a)] style formatting with two arguments. *)
Definition checkpoint_uri (bucket s3_prefix : string) : string :=
  String.append "s3://" (String.append bucket
    (String.append "/" (String.append s3_prefix "/checkpoint"))).

Definition local_estimator_parameters (role : string) : pyval :=
  let train_instance_type := PStr "local" in
  let hyperparameters :=
    PDict [("epochs", PInt 5); ("batch_size", PInt 128);
           ("learning_rate", PFloat "0.01")] in
  PDict [("source_dir", PStr "pytorch-model/train_model");
         ("entry_point", PStr "train_deploy.py");
         ("train_instance_type", train_instance_type);
         ("train_instance_count", PInt 1);
         ("hyperparameters", hyperparameters);
         ("role", PStr role);
         ("base_job_name", PStr "pytorch-local-model");
         ("framework_version", PStr "1.5");
         ("py_version", PStr "py3")].

(** Hosted training cell. *)
Definition hosted_estimator_parameters (role : string) : pyval :=
  let train_instance_type := PStr "ml.c5.xlarge" in
  let hyperparameters :=
    PDict [("epochs", PInt 30); ("batch_size", PInt 128);
           ("learning_rate", PFloat "0.01")] in
  PDict [("source_dir", PStr "pytorch-model/train_model");
         ("entry_point", PStr "train_deploy.py");
         ("train_instance_type", train_instance_type);
         ("train_instance_count", PInt 1);
         ("hyperparameters", hyperparameters);
         ("role", PStr role);
         ("base_job_name", PStr "pytorch-hosted-model");
         ("framework_version", PStr "1.5.1");
         ("py_version", PStr "py3");
         ("metric_definitions", metric_definitions)].

(** Managed Spot Training cell (it rebinds [estimator_parameters]). *)
Definition spot_estimator_parameters (role bucket s3_prefix : string) : pyval :=
  let train_instance_type := PStr "ml.c5.xlarge" in
  let hyperparameters :=
    PDict [("epochs", PInt 30); ("batch_size", PInt 128);
           ("learning_rate", PFloat "0.01")] in
  PDict [("source_dir", PStr "pytorch-model/train_model");
         ("entry_point", PStr "train_deploy.py");
         ("train_instance_type", train_instance_type);
         ("train_instance_count", PInt 1);
         ("hyperparameters", hyperparameters);
         ("role", PStr role);
         ("base_job_name", PStr "pytorch-hosted-model");
         ("framework_version", PStr "1.5.1");
         ("py_version", PStr "py3");
         ("metric_definitions", metric_definitions);
         ("train_use_spot_instances", PBool true);
         ("train_max_run", PInt 1200);
         ("train_max_wait", PInt 2400);
         ("checkpoint_s3_uri", PStr (checkpoint_uri bucket s3_prefix))].

Definition nonempty_dict (v : option pyval) : Prop :=
  match v with
  | Some (PDict d) => d <> []
  | _ => False
  end.

(** The estimator's argument check on spot settings, as the notebook states
    it: with spot instances, [train_max_wait] below [train_max_run] is an
    argument error. *)
Inductive checked : Type := Accepted | ArgumentError.

Definition check_spot (params : pyval) : checked :=
  match get "train_use_spot_instances" params,
        get "train_max_run" params, get "train_max_wait" params with
  | Some (PBool true), Some (PInt run), Some (PInt wait) =>
      if wait <? run then ArgumentError else Accepted
  | _, _, _ => Accepted
  end.

End Config.

(** ** The serving container's health check

    The container answering [GET /ping] and [POST /invocations] is the
    repository's BYOC example; its server code is not among the sources here,
    only the notebook that calls it. *)
Module Ping.
Open Scope Z_scope.

Record request : Type := mkReq { method : string; path : string }.

(** Modelled from the spec: the container's [/ping] handler; the spec says
    "the health-check endpoint returns HTTP 200". *)
Definition ping_handler (_ : request) : Z := 200.

(** [urllib.request.urlopen]: a response whose status is outside 2xx raises
    [HTTPError] (the default [HTTPErrorProcessor]). *)
Definition urlopen (status : Z) : option Z :=
  if (200 <=? status) && (status <? 300) then Some status else None.

(** The notebook's test cell: [resp = request.urlopen("%s/ping" % base_url)]
    followed by [resp.getcode()]; [None] is the raised [HTTPError]. *)
Definition ping_cell (base_url : string) : option Z :=
  urlopen (ping_handler (mkReq "GET" (String.append base_url "/ping"))).

End Ping.

(** ** Resource names of a workflow execution *)
Module Names.

Definition training_job_name (id : string) : string :=
  String.append "BostonHousing-" (String.append id "-Train").
Definition model_name (id : string) : string :=
  String.append "BostonHousting-" (String.append id "-Model").
Definition endpoint_name (id : string) : string :=
  String.append "BostonHousing-" (String.append id "-Endpoint").

End Names.

(** ** The preprocessing script's effect on the file system

    The files the script reads and writes: [np.save] replaces the array stored
    at its path.  [glob.glob('{}/*.npy'.format(input_dir))] yields
    [os.path.join(input_dir, name)] for each matching directory entry. *)
Module ScriptRun.
Import Preprocess.

Definition fs := string -> option matrix.

Definition np_save (s : fs) (save : string * matrix) : fs :=
  fun q => if String.eqb q (fst save) then Some (snd save) else s q.

(** Running [preprocessing.py] over the globbed [files]: the file system
    after the [np.save] calls that were made, and the exception that stopped
    the script, if any. *)
Definition run_script (s : fs) (files : list (string * matrix)) : fs * option string :=
  let '(saves, exn) := preprocessing files in (fold_left np_save saves s, exn).

Definition input_dir : string := "/opt/ml/processing/input".

Definition globbed (name : string) : string := path_join input_dir name.

End ScriptRun.

(** ** The multi-model endpoint's model artifacts (deployment notebook)

    S3 as the notebook uses it: the object stored under each URI.  A shell
    line [!aws s3 cp src dst] copies the object; when [src] does not exist the
    command fails and the notebook goes on with S3 unchanged. *)
Module Mme.

Definition s3 (A : Type) := string -> option A.

Definition s3_cp {A} (s : s3 A) (src dst : string) : s3 A :=
  match s src with
  | None => s
  | Some o => fun q => if String.eqb q dst then Some o else s q
  end.

(** [model_2 = f's3://{bucket}/{tuner.best_training_job()}/output/model.tar.gz'] *)
Definition model_2 (bucket best_job : string) : string :=
  String.append "s3://" (String.append bucket
    (String.append "/" (String.append best_job "/output/model.tar.gz"))).

(** [output_k = f's3://{bucket}/{s3_prefix}/mme/modelk.tar.gz'] *)
Definition output_1 (bucket s3_prefix : string) : string :=
  String.append "s3://" (String.append bucket
    (String.append "/" (String.append s3_prefix "/mme/model1.tar.gz"))).
Definition output_2 (bucket s3_prefix : string) : string :=
  String.append "s3://" (String.append bucket
    (String.append "/" (String.append s3_prefix "/mme/model2.tar.gz"))).
Definition output_3 (bucket s3_prefix : string) : string :=
  String.append "s3://" (String.append bucket
    (String.append "/" (String.append s3_prefix "/mme/model3.tar.gz"))).

(** [model_data_prefix = f's3://{bucket}/{s3_prefix}/mme/'] *)
Definition model_data_prefix (bucket s3_prefix : string) : string :=
  String.append "s3://" (String.append bucket
    (String.append "/" (String.append s3_prefix "/mme/"))).

(** The cells [!aws s3 cp {model_1} {output_1}], [!aws s3 cp {model_2}
    {output_2}] and, later, [!aws s3 cp {model_1} {output_3}];
    [model_1 = remote_model_data]. *)
Definition copy_cells {A} (s : s3 A) (bucket s3_prefix model_1 best_job : string) : s3 A :=
  let s1 := s3_cp s model_1 (output_1 bucket s3_prefix) in
  let s2 := s3_cp s1 (model_2 bucket best_job) (output_2 bucket s3_prefix) in
  s3_cp s2 model_1 (output_3 bucket s3_prefix).

(** [mme_predictor.predict(x, initial_args={'TargetModel': t})]: the
    multi-model endpoint serves the artifact stored at [model_data_prefix]
    followed by [t]. *)
Definition target_model {A} (s : s3 A) (bucket s3_prefix t : string) : option A :=
  s (String.append (model_data_prefix bucket s3_prefix) t).

End Mme.

(** ** Reading the captured predictions back (deployment notebook)

    [list_loop n f] is a Python loop [for i in range(n): out.append(f(i))]
    starting from [out = []]; [None] is an exception raised by [f(i)], which
    ends the loop. *)
Module Capture.
Import Preprocess.
Open Scope R_scope.

Definition list_loop {B} (n : nat) (f : nat -> option B) : option (list B) :=
  fold_left (fun acc i =>
               match acc with
               | None => None
               | Some out =>
                   match f i with
                   | None => None
                   | Some v => Some (out ++ [v])
                   end
               end) (seq 0 n) (Some []).

(** One [os.walk] entry: [(root, dirs, files)]. *)
Definition walk_entry := (string * list string * list string)%type.

(** [for root, dirs, files in os.walk(top): for file in files:
    if file != '.DS_Store': with open(os.path.join(root, file)) as auto:
    requests_predictions_file = auto.readlines()].  [read] gives the lines of
    each file; [rpf] is the notebook-global [requests_predictions_file] before
    the loop ([None]: not bound yet). *)
Definition walk_loop (read : string -> list string) (walk : list walk_entry)
    (rpf : option (list string)) : option (list string) :=
  fold_left (fun acc '(root, _, files) =>
               fold_left (fun acc file =>
                            if String.eqb file ".DS_Store" then acc
                            else Some (read (path_join root file))) files acc)
            walk rpf.

(** [variant_predictions = []]; [for i in range(len(requests_predictions_file)):
    variant_predictions.append(float(json.loads(requests_predictions_file[i])
    ['captureData']['endpointOutput']['data']))].  [extract] is the parse of
    one line; [None] is an unbound [requests_predictions_file] ([NameError])
    or a line that does not parse. *)
Definition predictions_of {B} (extract : string -> option B)
    (rpf : option (list string)) : option (list B) :=
  match rpf with
  | None => None
  | Some lines => list_loop (List.length lines) (fun i => extract (nth i lines ""))
  end.

(** A capture-reading cell: the walk loop, then the predictions loop.  It
    returns the new [requests_predictions_file] and the predictions. *)
Definition capture_cell {B} (read : string -> list string) (extract : string -> option B)
    (walk : list walk_entry) (rpf : option (list string))
    : option (list string) * option (list B) :=
  let rpf' := walk_loop read walk rpf in (rpf', predictions_of extract rpf').

(** The paths the walk loop opens, in order. *)
Definition opened (walk : list walk_entry) : list string :=
  flat_map (fun '(root, _, files) =>
              map (path_join root)
                  (filter (fun f => negb (String.eqb f ".DS_Store")) files)) walk.

(** [errors_var = [ground_truth[i] - variant_predictions[i]
    for i in range(len(ground_truth))]]; an index past the end of either list
    raises [IndexError] ([None]). *)
Definition errors (ground_truth preds : list R) : option (list R) :=
  list_loop (List.length ground_truth)
    (fun i => match nth_error ground_truth i, nth_error preds i with
              | Some a, Some b => Some (a - b)
              | _, _ => None
              end).

End Capture.

(** ** The tuner parameter dictionary across notebooks

    A Python dict as its list of entries in insertion order. *)
Module PyDict.
Section Dict.
Context {V : Type}.

Definition dict := list (string * V).

Fixpoint lookup (k : string) (d : dict) : option V :=
  match d with
  | [] => None
  | (k', v) :: r => if String.eqb k k' then Some v else lookup k r
  end.

(** [k in d] *)
Definition py_in (k : string) (d : dict) : bool :=
  existsb (fun e => String.eqb k (fst e)) d.

Fixpoint remove_key (k : string) (d : dict) : dict :=
  match d with
  | [] => []
  | (k', v) :: r => if String.eqb k k' then r else (k', v) :: remove_key k r
  end.

(** [d.__delitem__(k)]: [KeyError] ([None]) when [k] is absent. *)
Definition delitem (k : string) (d : dict) : option dict :=
  if py_in k d then Some (remove_key k d) else None.

(** [d[k] = v]: an existing key keeps its position, a new one goes last. *)
Fixpoint setitem (k : string) (v : V) (d : dict) : dict :=
  match d with
  | [] => [(k, v)]
  | (k', v') :: r => if String.eqb k k' then (k', v) :: r else (k', v') :: setitem k v r
  end.

End Dict.
Arguments dict : clear implicits.

(** Training notebook, last cell:
    [if 'estimator' in tuner_parameters: tuner_parameters.__delitem__('estimator')]
    before [%store tuner_parameters]. *)
Definition strip_estimator {V} (d : dict V) : option (dict V) :=
  if py_in "estimator" d then delitem "estimator" d else Some d.

(** Deployment notebook: [tuner_parameters['estimator'] = estimator]. *)
Definition restore_estimator {V} (e : V) (d : dict V) : dict V :=
  setitem "estimator" e d.

(** Values of the tuner dictionary: SDK objects by name, or plain values. *)
Inductive arg : Type :=
| AObj (name : string)
| AVal (v : Config.pyval).

Definition tuner_parameters : dict arg :=
  [("estimator", AObj "estimator");
   ("objective_metric_name", AVal (Config.PStr "val_loss"));
   ("hyperparameter_ranges", AObj "hyperparameter_ranges");
   ("metric_definitions", AVal Config.metric_definitions);
   ("max_jobs", AVal (Config.PInt 4));
   ("max_parallel_jobs", AVal (Config.PInt 2));
   ("objective_type", AVal (Config.PStr "Minimize"))].

End PyDict.


(** ** The warehouse connector notebook's connection cell

    A small Python fragment: expressions, expression statements, assignments
    and imports, evaluated left to right over the notebook's globals.  A call
    of an SDK function is recorded in the trace and raises what [sdk] says for
    it; an import of a module may raise as well. *)
Module Connect.
Local Set Warnings "-register-all".

Inductive expr : Type :=
| EStr (s : string)
| EName (x : string)
| ESub (e k : expr)
| ECall (f : string) (kwargs : list (string * expr)).

Inductive pstmt : Type :=
| SImport (m : string)
| SExpr (e : expr)
| SAssign (x : string) (e : expr).

Inductive pval : Type :=
| PVStr (s : string)
| PVDict (d : list (string * pval))
| PVObj (name : string).

Definition globals := string -> option pval.

(** What [sdk] does for each call (or import): [Some exn] raises [exn]. *)
Definition sdk_env := string -> option string.

Fixpoint dict_lookup (k : string) (d : list (string * pval)) : option pval :=
  match d with
  | [] => None
  | (k', v) :: r => if String.eqb k k' then Some v else dict_lookup k r
  end.

(** The trace of SDK calls made and the value or raised exception. *)
Fixpoint eval (sdk : sdk_env) (g : globals) (e : expr) : list string * (string + pval) :=
  match e with
  | EStr s => ([], inr (PVStr s))
  | EName x =>
      match g x with
      | Some v => ([], inr v)
      | None => ([], inl "NameError")
      end
  | ESub e k =>
      match eval sdk g e with
      | (t1, inl exn) => (t1, inl exn)
      | (t1, inr v) =>
          match eval sdk g k with
          | (t2, inl exn) => (t1 ++ t2, inl exn)
          | (t2, inr kv) =>
              match v, kv with
              | PVDict d, PVStr ks =>
                  match dict_lookup ks d with
                  | Some r => (t1 ++ t2, inr r)
                  | None => (t1 ++ t2, inl "KeyError")
                  end
              | _, _ => (t1 ++ t2, inl "TypeError")
              end
          end
      end
  | ECall f kwargs =>
      let fix args (l : list (string * expr)) : list string * option string :=
        match l with
        | [] => ([], None)
        | (_, a) :: r =>
            match eval sdk g a with
            | (t1, inl exn) => (t1, Some exn)
            | (t1, inr _) => let '(t2, o) := args r in (t1 ++ t2, o)
            end
        end in
      match args kwargs with
      | (t, Some exn) => (t, inl exn)
      | (t, None) =>
          match sdk f with
          | Some exn => (t ++ [f], inl exn)
          | None => (t ++ [f], inr (PVObj f))
          end
      end
  end.

Definition bind_global (g : globals) (x : string) (v : pval) : globals :=
  fun y => if String.eqb y x then Some v else g y.

(** [import a.b] binds [a]. *)
Fixpoint top_module (m : string) : string :=
  match m with
  | EmptyString => EmptyString
  | String "."%char _ => EmptyString
  | String c r => String c (top_module r)
  end.

Definition exec_stmt (sdk : sdk_env) (g : globals) (s : pstmt)
    : list string * (string + globals) :=
  match s with
  | SImport m =>
      match sdk (String.append "import " m) with
      | Some exn => ([], inl exn)
      | None => ([], inr (bind_global g (top_module m) (PVObj (top_module m))))
      end
  | SExpr e =>
      match eval sdk g e with
      | (t, inl exn) => (t, inl exn)
      | (t, inr _) => (t, inr g)
      end
  | SAssign x e =>
      match eval sdk g e with
      | (t, inl exn) => (t, inl exn)
      | (t, inr v) => (t, inr (bind_global g x v))
      end
  end.

Fixpoint exec_cell (sdk : sdk_env) (g : globals) (c : list pstmt)
    : list string * (string + globals) :=
  match c with
  | [] => ([], inr g)
  | s :: r =>
      match exec_stmt sdk g s with
      | (t, inl exn) => (t, inl exn)
      | (t, inr g') => let '(t', o) := exec_cell sdk g' r in (t ++ t', o)
      end
  end.

(** The connection cell.  The [param_values] dictionary sits inside a
    triple-quoted string, which is an expression statement: it binds nothing. *)
Definition param_values_text : string :=
  "param_values = { '/SNOWFLAKE/USER_ID': '', '/SNOWFLAKE/PASSWORD': '', '/SNOWFLAKE/ACCOUNT_ID': '', '/SNOWFLAKE/WAREHOUSE': '', '/SNOWFLAKE/DATABASE': '', '/SNOWFLAKE/SCHEMA': '' }".

Definition param (key : string) : expr := ESub (EName "param_values") (EStr key).

Definition connect_cell : list pstmt :=
  [ SImport "snowflake.connector";
    SExpr (EStr param_values_text);
    SAssign "ctx" (ECall "snowflake.connector.connect"
      [("user", param "/SNOWFLAKE/USER_ID");
       ("password", param "/SNOWFLAKE/PASSWORD");
       ("account", param "/SNOWFLAKE/ACCOUNT_ID");
       ("warehouse", param "/SNOWFLAKE/WAREHOUSE");
       ("database", param "/SNOWFLAKE/DATABASE");
       ("schema", param "/SNOWFLAKE/SCHEMA")]) ].

End Connect.


(** ** Resources of a workflow execution (orchestration notebook)

    What each step of [workflow_definition] refers to and creates on the
    platform, read off the step constructors' arguments.  A step fails when a
    resource it refers to does not exist, or when the job, model, endpoint
    configuration or endpoint it creates has a name already in use (the
    notebook: "SageMaker expects unique names for each job, model and
    endpoint.  If these names are not unique the execution will fail.");
    an S3 output is simply written.  An execution stops at its first failing
    step. *)
Module Pipeline.

Inductive kind : Type :=
| S3Object
| ProcessingJob
| TrainingJob
| Model
| EndpointConfig
| Endpoint (config : string).

Definition resource := (kind * string)%type.

Definition kind_eqb (a b : kind) : bool :=
  match a, b with
  | S3Object, S3Object | ProcessingJob, ProcessingJob
  | TrainingJob, TrainingJob | Model, Model
  | EndpointConfig, EndpointConfig => true
  | Endpoint c, Endpoint d => String.eqb c d
  | _, _ => false
  end.

Definition res_eqb (a b : resource) : bool :=
  kind_eqb (fst a) (fst b) && String.eqb (snd a) (snd b).

(** Same kind of named resource and same name (an endpoint's name is taken
    whatever its configuration). *)
Definition same_slot (a b : resource) : bool :=
  String.eqb (snd a) (snd b) &&
  match fst a, fst b with
  | Endpoint _, Endpoint _ => true
  | k, l => kind_eqb k l
  end.

Definition present (r : resource) (reg : list resource) : bool := existsb (res_eqb r) reg.

Definition taken (r : resource) (reg : list resource) : bool := existsb (same_slot r) reg.

Record rstep : Type := mkR {
  r_name : string;
  r_reads : list resource;
  r_creates : list resource
}.

Definition creatable (reg : list resource) (r : resource) : bool :=
  match fst r with
  | S3Object => true
  | _ => negb (taken r reg)
  end.

Definition run_step (reg : list resource) (s : rstep) : option (list resource) :=
  if forallb (fun r => present r reg) (r_reads s) && forallb (creatable reg) (r_creates s)
  then Some (reg ++ r_creates s) else None.

(** The registry after the execution, and the name of the failed step. *)
Fixpoint run_chain (reg : list resource) (l : list rstep) : list resource * option string :=
  match l with
  | [] => (reg, None)
  | s :: r =>
      match run_step reg s with
      | None => (reg, Some (r_name s))
      | Some reg' => run_chain reg' r
      end
  end.

Record execution_input : Type := mkInput {
  TrainingJobName : string;
  ModelName : string;
  EndpointName : string
}.

(** [output_destination = 's3://{}/{}/data'.format(bucket, s3_prefix)] *)
Definition output_destination (bucket s3_prefix : string) : string :=
  String.append "s3://" (String.append bucket
    (String.append "/" (String.append s3_prefix "/data"))).
Definition train_destination (bucket s3_prefix : string) : string :=
  String.append (output_destination bucket s3_prefix) "/train".
Definition test_destination (bucket s3_prefix : string) : string :=
  String.append (output_destination bucket s3_prefix) "/test".

(** The notebook-level values the steps are built from: [raw_s3] (restored
    with [%store -r]), [code_uri] (the uploaded script), and
    [sf_processing_job_name], formatted once when the cell runs. *)
Record setup : Type := mkSetup {
  bucket : string;
  s3_prefix : string;
  raw_s3 : string;
  code_uri : string;
  sf_processing_job_name : string
}.

(** The processing step as the registry sees it: it needs [raw_s3] and
    [code_uri], and it takes the job name [sf_processing_job_name].  The
    registry also records the two output prefixes, as they stand when the job
    completes.  What the script does inside the job is not modelled here: its
    exceptions and the files it saves are [Preprocess] and [ScriptRun].  So the
    theorems over [execute] below concern only executions that complete, or
    that fail on a name already taken. *)
Definition processing_step (c : setup) : rstep :=
  mkR "Preprocessing"
      [(S3Object, raw_s3 c); (S3Object, code_uri c)]
      [(ProcessingJob, sf_processing_job_name c);
       (S3Object, test_destination (bucket c) (s3_prefix c));
       (S3Object, train_destination (bucket c) (s3_prefix c))].

(** [data=inputs] with [inputs = {'train': train_destination, 'test':
    test_destination}], [job_name=execution_input['TrainingJobName']]. *)
Definition training_step (c : setup) (ei : execution_input) : rstep :=
  mkR "Model Training"
      [(S3Object, train_destination (bucket c) (s3_prefix c));
       (S3Object, test_destination (bucket c) (s3_prefix c))]
      [(TrainingJob, TrainingJobName ei)].

(** [model=training_step.get_expected_model()],
    [model_name=execution_input['ModelName']]. *)
Definition model_step (ei : execution_input) : rstep :=
  mkR "Save Model" [(TrainingJob, TrainingJobName ei)] [(Model, ModelName ei)].

(** [endpoint_config_name=execution_input['ModelName']],
    [model_name=execution_input['ModelName']]. *)
Definition endpoint_config_step (ei : execution_input) : rstep :=
  mkR "Create Model Endpoint Config" [(Model, ModelName ei)]
      [(EndpointConfig, ModelName ei)].

(** [endpoint_name=execution_input['EndpointName']],
    [endpoint_config_name=execution_input['ModelName']], [update=False]. *)
Definition endpoint_step (ei : execution_input) : rstep :=
  mkR "Create Inference Endpoint" [(EndpointConfig, ModelName ei)]
      [(Endpoint (ModelName ei), EndpointName ei)].

Definition workflow_definition (c : setup) (ei : execution_input) : list rstep :=
  [processing_step c; training_step c ei; model_step ei;
   endpoint_config_step ei; endpoint_step ei].

(** [workflow.execute(inputs=...)] *)
Definition execute (reg : list resource) (c : setup) (ei : execution_input) :=
  run_chain reg (workflow_definition c ei).

Fixpoint config_of (en : string) (reg : list resource) : option string :=
  match reg with
  | [] => None
  | (Endpoint c, n) :: r => if String.eqb n en then Some c else config_of en r
  | _ :: r => config_of en r
  end.

Definition is_endpoint (en : string) (r : resource) : bool :=
  match r with
  | (Endpoint _, n) => String.eqb n en
  | _ => false
  end.

(** [workflow_predictor.delete_endpoint(delete_endpoint_config=True)]: the
    endpoint's configuration name comes from [describe_endpoint] (which fails,
    [None], for an unknown endpoint); the configuration, then the endpoint, is
    deleted. *)
Definition delete_endpoint (en : string) (reg : list resource) : option (list resource) :=
  match config_of en reg with
  | None => None
  | Some c =>
      Some (filter (fun r => negb (is_endpoint en r))
                   (filter (fun r => negb (res_eqb r (EndpointConfig, c))) reg))
  end.

End Pipeline.

(** * Sanity checks on concrete inputs *)

Example frame_mutation_example :
  Frame.mutate_cell (Frame.fetch_pandas_all ["X0"; "Y"]
                       [[Frame.VInt 7; Frame.VStr "a"]; [Frame.VInt 8; Frame.VStr "b"]])
                    [Z.shiftl 42 25]
  = Some (42%Z, Frame.mkF ["X0"; "Y"] [0%Z; 1%Z]
                  [[Frame.VInt 42; Frame.VStr "a"]; [Frame.VInt 8; Frame.VStr "b"]]).
Proof. reflexivity. Qed.

Example split_506 : Split.training_index 506 = 404%Z.
Proof. reflexivity. Qed.

Example train_out_path : Preprocess.train_out = "/opt/ml/processing/train/x_train.npy".
Proof. reflexivity. Qed.

Example contains_train :
  Preprocess.contains "train" "/opt/ml/processing/input/x_train.npy" = true /\
  Preprocess.contains "train" "/opt/ml/processing/input/x_test.npy" = false.
Proof. split; reflexivity. Qed.

(** * Helper lemmas *)
Module Lemmas.

Section CellLemmas.
Import Cells.

Lemma exec_try_free env s :
  try_free s = true -> exec env s = first_raise env (calls s).
Proof.
  induction s as [f | s1 IH1 s2 IH2 | b IHb x h IHh]; simpl; intro H.
  - destruct (env f); reflexivity.
  - apply andb_prop in H as [H1 H2].
    rewrite IH1 by exact H1.
    clear IH1 H1.
    induction (calls s1) as [| g r IHr]; simpl.
    + apply IH2; exact H2.
    + destruct (env g); [reflexivity | exact IHr].
  - discriminate.
Qed.

Lemma stmt_eqb_eq s t : stmt_eqb s t = true -> s = t.
Proof.
  revert t; induction s as [f | a1 IH1 a2 IH2 | a IHa x h IHh];
    intros [g | b1 b2 | b y k]; simpl; intro H; try discriminate.
  - apply String.eqb_eq in H; subst; reflexivity.
  - apply andb_prop in H as [H1 H2]; f_equal; auto.
  - apply andb_prop in H as [H H3]; apply andb_prop in H as [H1 H2].
    apply String.eqb_eq in H2; subst; f_equal; auto.
Qed.

Lemma cells_try_free_but_setup_b :
  forallb (forallb cell_ok) notebooks = true.
Proof. vm_compute; reflexivity. Qed.

Lemma cells_try_free_but_setup nb c :
  In nb notebooks -> In c nb -> c = prep_setup_cell \/ try_free c = true.
Proof.
  intros Hnb Hc.
  pose proof cells_try_free_but_setup_b as H.
  rewrite forallb_forall in H; specialize (H nb Hnb).
  rewrite forallb_forall in H; specialize (H c Hc).
  unfold cell_ok in H; apply orb_prop in H as [H | H].
  - left; apply stmt_eqb_eq; exact H.
  - right; exact H.
Qed.

End CellLemmas.


Lemma list_ascii_append (a b : string) :
  list_ascii_of_string (String.append a b) =
  list_ascii_of_string a ++ list_ascii_of_string b.
Proof. induction a as [| c a IH]; simpl; [reflexivity | now rewrite IH]. Qed.

Lemma append_cancel_l (p a b : string) :
  String.append p a = String.append p b -> a = b.
Proof.
  induction p as [| c p IH]; simpl; intro H; [exact H |].
  injection H as H; exact (IH H).
Qed.

Lemma append_cancel_r (a b s : string) :
  String.append a s = String.append b s -> a = b.
Proof.
  intro H.
  apply (f_equal list_ascii_of_string) in H.
  rewrite !list_ascii_append in H.
  apply app_inv_tail in H.
  rewrite <- (string_of_list_ascii_of_string a), <- (string_of_list_ascii_of_string b).
  now rewrite H.
Qed.

Section IndexOf.
Variable A : Type.
Variable eqb : A -> A -> bool.
Hypothesis eqb_spec : forall a b, eqb a b = true <-> a = b.

Lemma index_of_nth x l j :
  Frame.index_of eqb x l = Some j -> nth_error l j = Some x.
Proof.
  revert j; induction l as [| y r IH]; simpl; intros j H; [discriminate |].
  destruct (eqb x y) eqn:E.
  - injection H as <-; apply eqb_spec in E; subst; reflexivity.
  - destruct (Frame.index_of eqb x r) as [j' |] eqn:E'; simpl in H;
      [injection H as <-; simpl; apply IH; reflexivity | discriminate].
Qed.

Lemma index_of_In x l : In x l -> exists j, Frame.index_of eqb x l = Some j.
Proof.
  induction l as [| y r IH]; simpl; intro H; [contradiction |].
  destruct (eqb x y) eqn:E; [exists O; reflexivity |].
  destruct H as [-> | H].
  - rewrite (proj2 (eqb_spec x x) eq_refl) in E; discriminate.
  - destruct (IH H) as [j ->]; exists (S j); reflexivity.
Qed.

Lemma index_of_functional x y l j :
  Frame.index_of eqb x l = Some j -> Frame.index_of eqb y l = Some j -> x = y.
Proof.
  intros Hx Hy; apply index_of_nth in Hx; apply index_of_nth in Hy.
  rewrite Hx in Hy; injection Hy as ->; reflexivity.
Qed.

End IndexOf.

Lemma nth_error_upd {A} (l : list A) i v k :
  nth_error (Frame.upd l i v) k =
  if Nat.eqb i k then option_map (fun _ => v) (nth_error l k) else nth_error l k.
Proof.
  revert i k; induction l as [| x r IH]; intros [| i] [| k]; simpl;
    try reflexivity; try (destruct (Nat.eqb i k); reflexivity).
  apply IH.
Qed.

Lemma randbelow_range n draws r :
  Frame.randbelow n draws = Some r -> (0 <= r < n)%Z.
Proof.
  induction draws as [| w rest IH]; simpl; intro H; [discriminate |].
  destruct (Z.ltb _ n) eqn:E.
  - injection H as <-; apply Z.ltb_lt in E; split; [| exact E].
    apply Z.shiftr_nonneg, Z.land_nonneg; right; lia.
  - apply IH; exact H.
Qed.

Lemma training_index_eq z : Split.training_index z = (8 * z / 10)%Z.
Proof. reflexivity. Qed.

End Lemmas.


(** * Claims *)
(** ** Lemmas on the preprocessing loop *)
Module PreLemmas.
Import Preprocess.

Definition ok (f : string * matrix) : Prop := fit_transform (snd f) <> None.

Lemma process_file_some path raw t :
  fit_transform raw = Some t ->
  process_file (path, raw) = Some (if contains "train" path then train_out else test_out, t).
Proof.
  intro H; unfold process_file; rewrite H; destruct (contains "train" path); reflexivity.
Qed.

Lemma process_file_none path raw :
  fit_transform raw = None -> process_file (path, raw) = None.
Proof. intro H; unfold process_file; rewrite H; reflexivity. Qed.

Lemma process_file_ok f : ok f -> exists sv, process_file f = Some sv.
Proof.
  destruct f as [path raw]; unfold ok; intro H; simpl in H.
  destruct (fit_transform raw) as [t |] eqn:E; [| contradiction].
  eexists; apply process_file_some; exact E.
Qed.

Lemma preprocessing_app pre post :
  Forall ok pre ->
  preprocessing (pre ++ post) =
    (fst (preprocessing pre) ++ fst (preprocessing post), snd (preprocessing post)).
Proof.
  induction pre as [| f pre IH]; intro H; simpl.
  - destruct (preprocessing post); reflexivity.
  - inversion H as [| ? ? Hf Hpre]; subst.
    destruct (process_file_ok f Hf) as [sv Hsv]; rewrite Hsv.
    rewrite (IH Hpre); destruct (preprocessing pre); reflexivity.
Qed.

Lemma preprocessing_ok files :
  Forall ok files -> snd (preprocessing files) = None /\
  List.length (fst (preprocessing files)) = List.length files.
Proof.
  induction files as [| f files IH]; intro H; simpl; [split; reflexivity |].
  inversion H as [| ? ? Hf Hrest]; subst.
  destruct (process_file_ok f Hf) as [sv Hsv]; rewrite Hsv.
  destruct (IH Hrest) as [E L]; destruct (preprocessing files); simpl in *.
  split; [exact E | rewrite L; reflexivity].
Qed.

Lemma run_script_snoc s pre f sv :
  Forall ok pre -> process_file f = Some sv ->
  ScriptRun.run_script s (pre ++ [f]) =
    (ScriptRun.np_save (fst (ScriptRun.run_script s pre)) sv, None).
Proof.
  intros Hpre Hf; unfold ScriptRun.run_script.
  rewrite (preprocessing_app pre [f] Hpre); simpl; rewrite Hf; simpl.
  destruct (preprocessing_ok pre Hpre) as [E _].
  destruct (preprocessing pre) as [saves exn]; simpl.
  rewrite fold_left_app; reflexivity.
Qed.

Lemma rectangular_b_iff m : rectangular_b m = true <-> rectangular m.
Proof.
  unfold rectangular_b, rectangular; rewrite forallb_forall, Forall_forall.
  split; intros H row Hrow; specialize (H row Hrow); apply Nat.eqb_eq; exact H.
Qed.

Lemma fit_transform_none m :
  fit_transform m = None <->
  m = [] \/ n_features m = O \/ ~ rectangular m \/
  Exists (Exists (fun x => is_infinity x = true)) m.
Proof.
  assert (Hc : fit_transform m = None <-> check_array m = false).
  { unfold fit_transform; destruct (check_array m); split; congruence. }
  rewrite Hc; unfold check_array.
  rewrite negb_false_iff, !orb_true_iff, !Nat.eqb_eq, length_zero_iff_nil, negb_true_iff.
  rewrite <- not_true_iff_false, rectangular_b_iff, existsb_exists.
  split.
  - intros [[[H | H] | H] | (row & Hrow & Hx)];
      [left | right; left | right; right; left | right; right; right]; try exact H.
    apply Exists_exists; exists row; split; [exact Hrow |].
    apply Exists_exists, existsb_exists, Hx.
  - intros [H | [H | [H | H]]]; [left; left; left | left; left; right | left; right | right];
      try exact H.
    apply Exists_exists in H as (row & Hrow & Hx); exists row; split; [exact Hrow |].
    apply existsb_exists, Exists_exists, Hx.
Qed.

Lemma nth_error_combine {A B} (l : list A) (l' : list B) j :
  nth_error (combine l l') j =
    match nth_error l j, nth_error l' j with
    | Some a, Some b => Some (a, b)
    | _, _ => None
    end.
Proof.
  revert l' j; induction l as [| a l IH]; intros [| b l'] [| j]; simpl; auto.
  destruct (nth_error l j); reflexivity.
Qed.

End PreLemmas.

Module Claims.
Import Cells.

(** C1 (counterexample): an exception raised by an SDK call is caught and
    recovered from.  In the data-preparation notebook's first cell,
    [sagemaker.get_execution_role()] raising [ValueError] is handled by the
    [except ValueError] branch, and the cell completes. *)
Lemma role_lookup_recovers :
  In prep_setup_cell nb_prep /\
  env_no_role "sagemaker.get_execution_role" = Some "ValueError" /\
  exec env_no_role prep_setup_cell = None.
Proof. vm_compute. split; [left; reflexivity | split; reflexivity]. Qed.

(** C1 (amended): apart from the data-preparation setup cell, which catches
    [ValueError] from [sagemaker.get_execution_role()], every code cell of
    every notebook has no handler: whatever the SDK does, the cell's outcome
    is the exception of the first SDK call that raises (or completion when none
    raises). *)
Theorem sdk_exceptions_propagate nb c env :
  In nb notebooks -> In c nb -> c <> prep_setup_cell ->
  exec env c = first_raise env (calls c).
Proof.
  intros Hnb Hc Hne.
  destruct (Lemmas.cells_try_free_but_setup nb c Hnb Hc) as [Heq | Htf].
  - contradiction.
  - apply Lemmas.exec_try_free; exact Htf.
Qed.

Lemma sdk_exceptions_propagate_witness :
  exec env_no_role (calls_block ["snowflake.connector.connect"]) =
  first_raise env_no_role (calls (calls_block ["snowflake.connector.connect"])).
Proof.
  apply (sdk_exceptions_propagate nb_connect).
  - left; reflexivity.
  - right; left; reflexivity.
  - vm_compute; discriminate.
Defined.

(** C2 (counterexample): after the Clean Up cell of the deployment notebook
    the production-variants endpoint still exists. *)
Lemma prodvar_endpoint_survives_cleanup :
  In Deploy.prodvar_endpoint_name
     (Deploy.endpoints (Deploy.run Deploy.init Deploy.deploy_notebook)).
Proof. vm_compute. left; reflexivity. Qed.

(** C2 (amended): the hosted, autotuned and multi-model endpoints and the
    monitoring schedule all exist before Clean Up; afterwards they and their
    endpoint configurations are deleted, and the only serving resource left is
    the production-variants endpoint ['pytorch-production-variants'] with its
    endpoint configuration, which the notebook leaves for manual deletion. *)
Theorem cleanup_leaves_only_prodvar :
  let before := Deploy.run Deploy.init Deploy.before_cleanup in
  let after := Deploy.run Deploy.init Deploy.deploy_notebook in
  Deploy.endpoints before =
    ["pytorch-housing"; "pytorch-housing-auto"; "mme-pytorch";
     Deploy.prodvar_endpoint_name] /\
  Deploy.schedules before = [Deploy.monitor_schedule_name] /\
  Deploy.endpoints after = [Deploy.prodvar_endpoint_name] /\
  Deploy.endpoint_configs after = [Deploy.prodvar_endpoint_name] /\
  Deploy.schedules after = [].
Proof. vm_compute. repeat split. Qed.

(** C6: the workflow definition chains exactly the five steps Preprocessing,
    Model Training, Save Model, Create Model Endpoint Config and Create
    Inference Endpoint, in this order; each occurs once, an execution from
    [StartAt] visits them in this order and ends, every [Next] transition and
    every use of another step's result points to an earlier step. *)
Theorem workflow_is_linear_dag :
  let names := ["Preprocessing"; "Model Training"; "Save Model";
                "Create Model Endpoint Config"; "Create Inference Endpoint"] in
  let sm := Workflow.chain Workflow.workflow_definition in
  map Workflow.step_name Workflow.workflow_definition = names /\
  NoDup names /\
  Workflow.visit 10 (Workflow.start_at sm) sm = names /\
  (forall st n, In st sm -> Workflow.st_next st = Some n ->
                Workflow.before (Workflow.st_name st) n names) /\
  (forall s d, In s Workflow.workflow_definition -> In d (Workflow.uses s) ->
               Workflow.before d (Workflow.step_name s) names).
Proof.
  cbv zeta.
  split; [reflexivity |].
  split; [repeat constructor; simpl; intuition discriminate |].
  split; [reflexivity |].
  split.
  - intros st n Hin Hn; vm_compute in Hin.
    repeat (destruct Hin as [Hin | Hin];
            [subst st; simpl in Hn;
             first [discriminate Hn | injection Hn as <-; vm_compute; lia] |]).
    destruct Hin.
  - intros s d Hin Hd; vm_compute in Hin.
    destruct Hin as [<- | [<- | [<- | [<- | [<- | []]]]]]; simpl in Hd;
      try contradiction; destruct Hd as [<- | []]; vm_compute; lia.
Qed.

(** C7: each of the three estimator parameter dictionaries (Local Mode,
    hosted, managed spot) has a non-empty ['hyperparameters'] dictionary. *)
Theorem estimator_hyperparameters_nonempty (role bucket s3_prefix : string) :
  Forall (fun p => Config.nonempty_dict (Config.get "hyperparameters" p))
    [Config.local_estimator_parameters role;
     Config.hosted_estimator_parameters role;
     Config.spot_estimator_parameters role bucket s3_prefix].
Proof. repeat constructor; vm_compute; discriminate. Qed.

(** C8 (modelled from the spec): every [/ping] request is answered with
    status 200, so the notebook's ping cell gets code 200 back. *)
Theorem ping_returns_200 (req : Ping.request) (base_url : string) :
  Ping.ping_handler req = 200%Z /\ Ping.ping_cell base_url = Some 200%Z.
Proof. split; reflexivity. Qed.

(** C9: the managed-spot configuration sets [train_max_run = 1200] and
    [train_max_wait = 2400], so it passes the [train_max_wait >=
    train_max_run] argument check. *)
Theorem spot_max_wait_ok (role bucket s3_prefix : string) :
  let p := Config.spot_estimator_parameters role bucket s3_prefix in
  Config.get "train_max_run" p = Some (Config.PInt 1200) /\
  Config.get "train_max_wait" p = Some (Config.PInt 2400) /\
  Config.check_spot p = Config.Accepted.
Proof. repeat split. Qed.

(** C10: for every [id] the three execution names are pairwise distinct, and
    each name is injective in [id]. *)
Theorem execution_names_collision_free (id id1 id2 : string) :
  id1 <> id2 ->
  (Names.training_job_name id <> Names.model_name id /\
   Names.training_job_name id <> Names.endpoint_name id /\
   Names.model_name id <> Names.endpoint_name id) /\
  (Names.training_job_name id1 <> Names.training_job_name id2 /\
   Names.model_name id1 <> Names.model_name id2 /\
   Names.endpoint_name id1 <> Names.endpoint_name id2).
Proof.
  intro Hne; unfold Names.training_job_name, Names.model_name, Names.endpoint_name.
  split; [split; [| split] | split; [| split]]; intro H.
  - simpl in H; discriminate.
  - apply Lemmas.append_cancel_l, Lemmas.append_cancel_l in H; discriminate.
  - simpl in H; discriminate.
  - apply Lemmas.append_cancel_l, Lemmas.append_cancel_r in H; contradiction.
  - apply Lemmas.append_cancel_l, Lemmas.append_cancel_r in H; contradiction.
  - apply Lemmas.append_cancel_l, Lemmas.append_cancel_r in H; contradiction.
Qed.

Lemma execution_names_collision_free_witness :
  ("a" <> "b") /\
  (Names.training_job_name "0f3a" <> Names.model_name "0f3a" /\
   Names.training_job_name "0f3a" <> Names.endpoint_name "0f3a" /\
   Names.model_name "0f3a" <> Names.endpoint_name "0f3a") /\
  (Names.training_job_name "a" <> Names.training_job_name "b" /\
   Names.model_name "a" <> Names.model_name "b" /\
   Names.endpoint_name "a" <> Names.endpoint_name "b").
Proof.
  split; [discriminate |].
  apply (execution_names_collision_free "0f3a" "a" "b"); discriminate.
Defined.

(** C3: in the connector notebook, for a fetched result set that has at
    least one row and a column ['X0'] (rows as wide as the column list),
    whenever [random.randint(0,100)] returns [temp]: [0 <= temp <= 100], the
    frame passed to [write_pandas] has the same columns and index, its cell
    (0, 'X0') is [temp], and every other cell equals the fetched value. *)
Theorem mutation_touches_one_cell cols rows draws temp w :
  rows <> [] -> In "X0" cols ->
  Forall (fun row => List.length row = List.length cols) rows ->
  Frame.mutate_cell (Frame.fetch_pandas_all cols rows) draws = Some (temp, w) ->
  (0 <= temp <= 100)%Z /\
  Frame.columns w = cols /\
  Frame.index w = Frame.index (Frame.fetch_pandas_all cols rows) /\
  (forall r c, Frame.cell w r c =
     if Z.eqb r 0 && String.eqb c "X0" then Some (Frame.VInt temp)
     else Frame.cell (Frame.fetch_pandas_all cols rows) r c).
Proof.
  intros Hrows Hx Hrect Hm.
  unfold Frame.mutate_cell, Frame.randint in Hm.
  destruct (Frame.randbelow (100 - 0 + 1) draws) as [r0 |] eqn:Hr; [| discriminate].
  simpl in Hm; injection Hm as <- <-.
  apply Lemmas.randbelow_range in Hr.
  destruct rows as [| row0 rest]; [contradiction |].
  destruct (Lemmas.index_of_In _ String.eqb String.eqb_eq "X0" cols Hx) as [j Hj].
  assert (Hj' := Lemmas.index_of_nth _ String.eqb String.eqb_eq _ _ _ Hj).
  assert (Hjlen : (j < List.length row0)%nat).
  { inversion Hrect as [| ? ? Hlen _]; rewrite Hlen.
    apply nth_error_Some; rewrite Hj'; discriminate. }
  unfold Frame.loc_set, Frame.fetch_pandas_all; simpl Frame.index; simpl Frame.columns.
  rewrite Hj.
  change (Frame.index_of Z.eqb 0%Z (map Z.of_nat (seq 0 (List.length (row0 :: rest)))))
    with (Some O).
  split; [lia |]. split; [reflexivity |]. split; [reflexivity |].
  intros r c; unfold Frame.cell; simpl Frame.index; simpl Frame.columns; simpl Frame.data.
  destruct (Z.eqb_spec r 0) as [-> | Hr0]; destruct (String.eqb_spec c "X0") as [-> | Hc];
    simpl.
  - rewrite Hj, Lemmas.nth_error_upd, Nat.eqb_refl.
    destruct (nth_error row0 j) eqn:E; [reflexivity |].
    apply nth_error_None in E; lia.
  - destruct (Frame.index_of String.eqb c cols) as [j' |] eqn:Hc'; [| reflexivity].
    rewrite Lemmas.nth_error_upd.
    destruct (Nat.eqb_spec j j') as [<- | _]; [| reflexivity].
    exfalso; apply Hc.
    exact (Lemmas.index_of_functional _ String.eqb String.eqb_eq _ _ _ _ Hc' Hj).
  - destruct (Z.eqb r 0) eqn:E; [apply Z.eqb_eq in E; contradiction |].
    destruct (Frame.index_of Z.eqb r _); simpl; reflexivity.
  - destruct (Z.eqb r 0) eqn:E; [apply Z.eqb_eq in E; contradiction |].
    destruct (Frame.index_of Z.eqb r _); simpl; reflexivity.
Qed.

Lemma mutation_touches_one_cell_witness :
  let cols := ["X0"; "Y"] in
  let rows := [[Frame.VInt 7; Frame.VStr "a"]; [Frame.VInt 8; Frame.VStr "b"]] in
  (0 <= 42 <= 100)%Z /\
  Frame.columns (Frame.mkF cols [0%Z; 1%Z]
                  [[Frame.VInt 42; Frame.VStr "a"]; [Frame.VInt 8; Frame.VStr "b"]]) = cols /\
  Frame.index (Frame.mkF cols [0%Z; 1%Z]
                  [[Frame.VInt 42; Frame.VStr "a"]; [Frame.VInt 8; Frame.VStr "b"]]) =
    Frame.index (Frame.fetch_pandas_all cols rows) /\
  (forall r c, Frame.cell (Frame.mkF cols [0%Z; 1%Z]
                  [[Frame.VInt 42; Frame.VStr "a"]; [Frame.VInt 8; Frame.VStr "b"]]) r c =
     if Z.eqb r 0 && String.eqb c "X0" then Some (Frame.VInt 42)
     else Frame.cell (Frame.fetch_pandas_all cols rows) r c).
Proof.
  cbv zeta.
  apply (mutation_touches_one_cell ["X0"; "Y"]
           [[Frame.VInt 7; Frame.VStr "a"]; [Frame.VInt 8; Frame.VStr "b"]]
           [Z.shiftl 42 25]).
  - discriminate.
  - left; reflexivity.
  - repeat constructor.
  - reflexivity.
Defined.

(** C5: for feature rows [x] and labels [y] of the same length [n], the
    split index is [floor(0.8 * n)] (between 0 and [n]); the training slices
    are the first [floor(0.8 * n)] elements of [x] and [y], the test slices
    the remaining [n - floor(0.8 * n)], and training ++ test gives back [x]
    and [y]. *)
Theorem split_partitions {A B} (x : list A) (y : list B) (n : nat) :
  List.length x = n -> List.length y = n ->
  let k := Split.training_index (Z.of_nat n) in
  let '((x_train, y_train), (x_test, y_test)) := Split.split x y in
  k = (8 * Z.of_nat n / 10)%Z /\ (0 <= k <= Z.of_nat n)%Z /\
  x_train = firstn (Z.to_nat k) x /\ y_train = firstn (Z.to_nat k) y /\
  List.length x_train = Z.to_nat k /\ List.length y_train = Z.to_nat k /\
  List.length x_test = (n - Z.to_nat k)%nat /\
  List.length y_test = (n - Z.to_nat k)%nat /\
  x_train ++ x_test = x /\ y_train ++ y_test = y.
Proof.
  intros Hx Hy; cbv zeta.
  unfold Split.split, Split.slice_to, Split.slice_from; rewrite Hx.
  rewrite Lemmas.training_index_eq.
  assert (Hk : (0 <= 8 * Z.of_nat n / 10 <= Z.of_nat n)%Z).
  { split; [apply Z.div_pos; lia | apply Z.div_le_upper_bound; lia]. }
  assert (Hkn : (Z.to_nat (8 * Z.of_nat n / 10) <= n)%nat) by lia.
  repeat split; try lia;
    rewrite ?length_firstn, ?length_skipn, ?firstn_skipn; lia || reflexivity.
Qed.

Lemma split_partitions_witness :
  let '((x_train, y_train), (x_test, y_test)) := Split.split [1; 2; 3; 4; 5] [6; 7; 8; 9; 10] in
  Split.training_index 5 = (8 * 5 / 10)%Z /\ (0 <= Split.training_index 5 <= 5)%Z /\
  x_train = firstn (Z.to_nat (Split.training_index 5)) [1; 2; 3; 4; 5] /\
  y_train = firstn (Z.to_nat (Split.training_index 5)) [6; 7; 8; 9; 10] /\
  List.length x_train = Z.to_nat (Split.training_index 5) /\
  List.length y_train = Z.to_nat (Split.training_index 5) /\
  List.length x_test = (5 - Z.to_nat (Split.training_index 5))%nat /\
  List.length y_test = (5 - Z.to_nat (Split.training_index 5))%nat /\
  x_train ++ x_test = [1; 2; 3; 4; 5] /\ y_train ++ y_test = [6; 7; 8; 9; 10].
Proof.
  exact (split_partitions [1; 2; 3; 4; 5] [6; 7; 8; 9; 10] 5 eq_refl eq_refl).
Defined.

(** C4 (counterexample): the transformed columns need not have mean 0 and
    variance 1.  In float64 the two-row column [[1.0], [1.0000000000000002]]
    has [mean_ = 1.0] (the sum [2 + 2^-52] rounds to [2.0]) and [var_ =
    2^-105], whose square root is not [0.0]; [fit_transform] gives the
    non-constant column [[0.0], [1.4142135623730949]] (written in hexadecimal
    below), whose mean is about 0.707 and whose variance is about 0.5. *)
Lemma scaled_column_not_standard :
  Preprocess.fit_transform [[1]; [0x1.0000000000001p0]]%float =
    Some [[0]; [0x1.6a09e667f3bccp0]]%float.
Proof. vm_compute; reflexivity. Qed.

(** C4 (amended): the preprocessing script handles the input files in order.
    While [StandardScaler().fit_transform] succeeds, the [k]-th file's
    transformed array is the [k]-th [np.save], to
    ['/opt/ml/processing/train/x_train.npy'] when its path contains ['train']
    and to ['/opt/ml/processing/test/x_test.npy'] otherwise.  At the first
    file [fit_transform] rejects, the script stops with [ValueError] after the
    [k] saves of the earlier files.  [fit_transform] rejects exactly the
    arrays with no rows, no columns, ragged rows or an infinite entry. *)
Theorem preprocessing_scales_and_routes files k path raw :
  nth_error files k = Some (path, raw) ->
  (forall i f, (i < k)%nat -> nth_error files i = Some f ->
               Preprocess.fit_transform (snd f) <> None) ->
  match Preprocess.fit_transform raw with
  | Some t =>
      nth_error (fst (Preprocess.preprocessing files)) k =
        Some (if Preprocess.contains "train" path
              then "/opt/ml/processing/train/x_train.npy"
              else "/opt/ml/processing/test/x_test.npy", t)
  | None =>
      List.length (fst (Preprocess.preprocessing files)) = k /\
      snd (Preprocess.preprocessing files) = Some "ValueError"
  end /\
  (Preprocess.fit_transform raw = None <->
   raw = [] \/ Preprocess.n_features raw = O \/ ~ Preprocess.rectangular raw \/
   Exists (Exists (fun x => is_infinity x = true)) raw).
Proof.
  intros Hk Hpre; split; [| apply PreLemmas.fit_transform_none].
  destruct (nth_error_split files k Hk) as (l1 & l2 & -> & Hl1).
  assert (Hok : Forall PreLemmas.ok l1).
  { apply Forall_forall; intros f Hf.
    destruct (In_nth_error _ _ Hf) as [i Hi].
    assert (Hlt : (i < k)%nat) by (subst k; apply nth_error_Some; congruence).
    apply (Hpre i f Hlt); rewrite nth_error_app1 by lia; exact Hi. }
  destruct (PreLemmas.preprocessing_ok l1 Hok) as [_ Hlen].
  rewrite (PreLemmas.preprocessing_app l1 _ Hok); cbn [Preprocess.preprocessing fst snd].
  destruct (Preprocess.fit_transform raw) as [t |] eqn:E.
  - rewrite (PreLemmas.process_file_some path raw t E).
    destruct (Preprocess.preprocessing l2); cbn [fst snd].
    rewrite nth_error_app2 by lia; rewrite Hlen, Hl1, Nat.sub_diag; simpl.
    destruct (Preprocess.contains "train" path); reflexivity.
  - rewrite (PreLemmas.process_file_none path raw E); cbn [fst snd].
    rewrite app_nil_r; split; [congruence | reflexivity].
Qed.

Lemma preprocessing_scales_and_routes_witness :
  let files := [("/opt/ml/processing/input/x_train.npy", [[1; 2]; [3; 5]]%float);
                ("/opt/ml/processing/input/x_test.npy", [[0; 4]; [2; 4]]%float)] in
  match Preprocess.fit_transform [[0; 4]; [2; 4]]%float with
  | Some t =>
      nth_error (fst (Preprocess.preprocessing files)) 1 =
        Some (if Preprocess.contains "train" "/opt/ml/processing/input/x_test.npy"
              then "/opt/ml/processing/train/x_train.npy"
              else "/opt/ml/processing/test/x_test.npy", t)
  | None =>
      List.length (fst (Preprocess.preprocessing files)) = 1%nat /\
      snd (Preprocess.preprocessing files) = Some "ValueError"
  end /\
  (Preprocess.fit_transform [[0; 4]; [2; 4]]%float = None <->
   [[0; 4]; [2; 4]]%float = [] \/ Preprocess.n_features [[0; 4]; [2; 4]]%float = O \/
   ~ Preprocess.rectangular [[0; 4]; [2; 4]]%float \/
   Exists (Exists (fun x => is_infinity x = true)) [[0; 4]; [2; 4]]%float).
Proof.
  cbv zeta.
  apply preprocessing_scales_and_routes; [reflexivity |].
  intros [| i] f Hi Hf; [| lia].
  injection Hf as <-; vm_compute; discriminate.
Defined.

End Claims.

(** * Further properties of the notebooks' code *)
Module Extras.

(** ** Helper lemmas *)

Lemma fold_np_save_at saves (s : ScriptRun.fs) q :
  fold_left ScriptRun.np_save saves s q =
  match rev (filter (fun sv => String.eqb q (fst sv)) saves) with
  | [] => s q
  | sv :: _ => Some (snd sv)
  end.
Proof.
  induction saves as [| sv saves IH] using rev_ind; [reflexivity |].
  rewrite fold_left_app, filter_app; simpl.
  unfold ScriptRun.np_save at 1.
  destruct (String.eqb q (fst sv)) eqn:E; simpl.
  - rewrite rev_app_distr; reflexivity.
  - rewrite app_nil_r; exact IH.
Qed.

(** ** The preprocessing script *)

(** X1: when [fit_transform] accepts every input, [preprocessing.py] ends
    without an exception; the training output file then holds the transform
    of the last input whose path contains ['train'] (it is left as it was when
    there is none), the test output file holds the transform of the last other
    input, and no other file is written: every earlier save to the same
    output is overwritten. *)
Theorem script_outputs_last_file s files :
  Forall (fun f => Preprocess.fit_transform (snd f) <> None) files ->
  let r := ScriptRun.run_script s files in
  snd r = None /\
  fst r Preprocess.train_out =
    match rev (filter (fun f => Preprocess.contains "train" (fst f)) files) with
    | [] => s Preprocess.train_out
    | f :: _ => Preprocess.fit_transform (snd f)
    end /\
  fst r Preprocess.test_out =
    match rev (filter (fun f => negb (Preprocess.contains "train" (fst f))) files) with
    | [] => s Preprocess.test_out
    | f :: _ => Preprocess.fit_transform (snd f)
    end /\
  (forall q, q <> Preprocess.train_out -> q <> Preprocess.test_out -> fst r q = s q).
Proof.
  cbv zeta.
  induction files as [| [path raw] files IH] using rev_ind; intro H.
  - repeat split; reflexivity.
  - apply Forall_app in H as [Hfiles Hf]; inversion Hf as [| ? ? Hraw _]; subst.
    specialize (IH Hfiles) as (_ & Htr & Hte & Hq); simpl in Hraw.
    destruct (Preprocess.fit_transform raw) as [t |] eqn:E; [| contradiction].
    rewrite (PreLemmas.run_script_snoc s files (path, raw) _ Hfiles
               (PreLemmas.process_file_some path raw t E)).
    unfold ScriptRun.np_save; simpl fst; simpl snd.
    rewrite !filter_app, !rev_app_distr; simpl.
    assert (Hne : String.eqb Preprocess.test_out Preprocess.train_out = false)
      by reflexivity.
    rewrite String.eqb_sym in Hne.
    destruct (Preprocess.contains "train" path); simpl;
      (split; [reflexivity |]);
      rewrite ?String.eqb_refl, ?Hne, ?(String.eqb_sym Preprocess.train_out), ?Hne;
      (split; [first [reflexivity | rewrite E; reflexivity | exact Htr] |]);
      (split; [first [reflexivity | rewrite E; reflexivity | exact Hte] |]);
      intros q H1 H2;
      apply String.eqb_neq in H1; apply String.eqb_neq in H2;
      rewrite ?H1, ?H2; apply Hq; apply String.eqb_neq; assumption.
Qed.

Lemma script_outputs_last_file_witness :
  let files := [("/opt/ml/processing/input/x_train.npy", [[1; 2]; [3; 5]]%float);
                ("/opt/ml/processing/input/x_test.npy", [[0; 4]; [2; 4]]%float)] in
  Forall (fun f => Preprocess.fit_transform (snd f) <> None) files /\
  let r := ScriptRun.run_script (fun _ => None) files in
  snd r = None /\
  fst r Preprocess.train_out =
    match rev (filter (fun f => Preprocess.contains "train" (fst f)) files) with
    | [] => None
    | f :: _ => Preprocess.fit_transform (snd f)
    end /\
  fst r Preprocess.test_out =
    match rev (filter (fun f => negb (Preprocess.contains "train" (fst f))) files) with
    | [] => None
    | f :: _ => Preprocess.fit_transform (snd f)
    end /\
  (forall q, q <> Preprocess.train_out -> q <> Preprocess.test_out -> fst r q = None).
Proof.
  cbv zeta.
  assert (H : Forall (fun f => Preprocess.fit_transform (snd f) <> None)
                [("/opt/ml/processing/input/x_train.npy", [[1; 2]; [3; 5]]%float);
                 ("/opt/ml/processing/input/x_test.npy", [[0; 4]; [2; 4]]%float)]).
  { repeat constructor; intro Hc; vm_compute in Hc; discriminate Hc. }
  split; [exact H |].
  exact (script_outputs_last_file (fun _ => None) _ H).
Defined.

(** X19: the script stops at the first input [fit_transform] rejects: the
    saves of the earlier inputs are made, the rejected input and every later
    one are not processed, and the script ends with [ValueError]. *)
Theorem script_stops_at_failing_file s pre path raw post :
  Forall (fun f => Preprocess.fit_transform (snd f) <> None) pre ->
  Preprocess.fit_transform raw = None ->
  ScriptRun.run_script s (pre ++ (path, raw) :: post) =
    (fst (ScriptRun.run_script s pre), Some "ValueError").
Proof.
  intros Hpre E; unfold ScriptRun.run_script.
  rewrite (PreLemmas.preprocessing_app pre _ Hpre); cbn [Preprocess.preprocessing].
  rewrite (PreLemmas.process_file_none path raw E); cbn [fst snd].
  rewrite app_nil_r; destruct (Preprocess.preprocessing pre); reflexivity.
Qed.

(** An input [a_train] that transforms, then an input [b_train] with no
    rows: [b_train] raises, and the training output keeps [a_train]'s
    transform. *)
Lemma script_stops_at_failing_file_witness :
  ScriptRun.run_script (fun _ => None)
    [("/opt/ml/processing/input/a_train.npy", [[1; 2]; [3; 4]]%float);
     ("/opt/ml/processing/input/b_train.npy", [])] =
  (fst (ScriptRun.run_script (fun _ => None)
          [("/opt/ml/processing/input/a_train.npy", [[1; 2]; [3; 4]]%float)]),
   Some "ValueError").
Proof.
  apply (script_stops_at_failing_file (fun _ => None)
           [("/opt/ml/processing/input/a_train.npy", [[1; 2]; [3; 4]]%float)]
           "/opt/ml/processing/input/b_train.npy" [] []).
  - repeat constructor; intro Hc; vm_compute in Hc; discriminate Hc.
  - reflexivity.
Defined.

(** X2: a globbed input path [os.path.join('/opt/ml/processing/input', name)]
    contains ['train'] exactly when the entry's own [name] does: the input
    directory never makes the script route a file to the training output. *)
Theorem glob_routing_by_name name :
  String.prefix "/" name = false ->
  Preprocess.contains "train" (ScriptRun.globbed name) =
  Preprocess.contains "train" name.
Proof.
  intro H; unfold ScriptRun.globbed, Preprocess.path_join; rewrite H.
  reflexivity.
Qed.

Lemma glob_routing_by_name_witness :
  String.prefix "/" "x_test.npy" = false /\
  Preprocess.contains "train" (ScriptRun.globbed "x_test.npy") =
  Preprocess.contains "train" "x_test.npy".
Proof.
  split; [reflexivity |].
  apply glob_routing_by_name; reflexivity.
Defined.

(** ** The train/test split *)

Lemma training_index_bounds n :
  (0 <= n)%Z ->
  (0 <= Split.training_index n)%Z /\
  (n <= 1 -> Split.training_index n = 0)%Z /\
  (2 <= n -> 1 <= Split.training_index n)%Z /\
  (1 <= n -> Split.training_index n < n)%Z.
Proof.
  intro Hn; rewrite Lemmas.training_index_eq.
  pose proof (Z.div_mod (8 * n) 10 ltac:(lia)) as Hd.
  pose proof (Z.mod_pos_bound (8 * n) 10 ltac:(lia)) as Hm.
  lia.
Qed.

(** X3: splitting [n] samples, the training slices are empty exactly when
    [n <= 1] and the test slices exactly when [n = 0]: one sample goes to the
    test set alone, and from two samples on both sets are non-empty. *)
Theorem split_empty_parts {A B} (x : list A) (y : list B) n :
  List.length x = n -> List.length y = n ->
  let '((x_train, y_train), (x_test, y_test)) := Split.split x y in
  (x_train = [] <-> (n <= 1)%nat) /\ (y_train = [] <-> (n <= 1)%nat) /\
  (x_test = [] <-> n = O) /\ (y_test = [] <-> n = O).
Proof.
  intros Hx Hy; unfold Split.split, Split.slice_to, Split.slice_from; simpl.
  rewrite Hx.
  destruct (training_index_bounds (Z.of_nat n) ltac:(lia)) as [H0 [H1 [H2 H3]]].
  set (k := Split.training_index (Z.of_nat n)) in *.
  rewrite <- !length_zero_iff_nil, !length_firstn, !length_skipn, Hx, Hy.
  repeat split; intro H; lia.
Qed.

Lemma split_empty_parts_witness :
  List.length [1; 2] = 2%nat /\ List.length [true; false] = 2%nat /\
  let '((x_train, y_train), (x_test, y_test)) := Split.split [1; 2] [true; false] in
  (x_train = [] <-> (2 <= 1)%nat) /\ (y_train = [] <-> (2 <= 1)%nat) /\
  (x_test = [] <-> 2%nat = O) /\ (y_test = [] <-> 2%nat = O).
Proof.
  split; [reflexivity | split; [reflexivity |]].
  apply (split_empty_parts [1; 2] [true; false] 2); reflexivity.
Defined.

(** ** The standard scaler *)

(** X4: [fit_transform] accepts every rectangular array with at least one
    row, at least one column and no infinite entry; the result has the
    array's shape, and entry [(i, j)] is [(x - mean_j) / scale_j] for the
    column statistics [col_stats] of column [j]. *)
Theorem fit_transform_shape m :
  m <> [] -> Preprocess.n_features m <> O -> Preprocess.rectangular m ->
  Forall (Forall (fun x => is_infinity x = false)) m ->
  exists t, Preprocess.fit_transform m = Some t /\
    List.length t = List.length m /\
    forall i row, nth_error m i = Some row ->
      exists row', nth_error t i = Some row' /\
        List.length row' = List.length row /\
        forall j x, nth_error row j = Some x ->
          nth_error row' j =
            Some (let '(mu, s) := Preprocess.col_stats (Preprocess.n_features m)
                                    (Preprocess.column m j) in
                  ((x - mu) / s)%float).
Proof.
  intros Hne Hn Hrect Hfin.
  assert (Hc : Preprocess.check_array m = true).
  { destruct (Preprocess.check_array m) eqn:Hc; [reflexivity | exfalso].
    assert (E : Preprocess.fit_transform m = None)
      by (unfold Preprocess.fit_transform; rewrite Hc; reflexivity).
    apply PreLemmas.fit_transform_none in E as [E | [E | [E | E]]]; try contradiction.
    apply Exists_exists in E as (row & Hrow & Hx); apply Exists_exists in Hx as (x & Hx & Hinf).
    rewrite Forall_forall in Hfin; specialize (Hfin row Hrow).
    rewrite Forall_forall in Hfin; specialize (Hfin x Hx); congruence. }
  unfold Preprocess.fit_transform; rewrite Hc.
  eexists; split; [reflexivity |]; split; [apply length_map |].
  intros i row Hi; rewrite nth_error_map, Hi; simpl.
  eexists; split; [reflexivity |].
  assert (Hlen : List.length row = Preprocess.n_features m)
    by (unfold Preprocess.rectangular in Hrect; rewrite Forall_forall in Hrect;
        apply Hrect; apply (nth_error_In m i Hi)).
  split.
  - rewrite length_map, length_combine, length_map, length_seq, Hlen; lia.
  - intros j x Hx.
    assert (Hj : (j < Preprocess.n_features m)%nat)
      by (rewrite <- Hlen; apply nth_error_Some; congruence).
    rewrite nth_error_map, PreLemmas.nth_error_combine, Hx, nth_error_map, nth_error_seq.
    apply Nat.ltb_lt in Hj; rewrite Hj; simpl.
    destruct (Preprocess.col_stats (Preprocess.n_features m) (Preprocess.column m j));
      reflexivity.
Qed.

Lemma fit_transform_shape_witness :
  exists t, Preprocess.fit_transform [[1; 2]; [3; 5]]%float = Some t /\
    List.length t = List.length [[1; 2]; [3; 5]]%float /\
    forall i row, nth_error [[1; 2]; [3; 5]]%float i = Some row ->
      exists row', nth_error t i = Some row' /\
        List.length row' = List.length row /\
        forall j x, nth_error row j = Some x ->
          nth_error row' j =
            Some (let '(mu, s) := Preprocess.col_stats
                                    (Preprocess.n_features [[1; 2]; [3; 5]]%float)
                                    (Preprocess.column [[1; 2]; [3; 5]]%float j) in
                  ((x - mu) / s)%float).
Proof.
  apply fit_transform_shape.
  - discriminate.
  - discriminate.
  - repeat constructor.
  - repeat constructor.
Defined.

(** ** The multi-model endpoint's artifacts *)

Lemma string_append_assoc (a b c : string) :
  String.append (String.append a b) c = String.append a (String.append b c).
Proof. induction a as [| x a IH]; simpl; [reflexivity | now rewrite IH]. Qed.

Lemma s3_cp_at {A} (s : Mme.s3 A) src dst q o :
  s src = Some o ->
  Mme.s3_cp s src dst q = if String.eqb q dst then Some o else s q.
Proof. intro H; unfold Mme.s3_cp; rewrite H; reflexivity. Qed.

Lemma target_is_output bucket s3_prefix :
  String.append (Mme.model_data_prefix bucket s3_prefix) "model1.tar.gz" =
    Mme.output_1 bucket s3_prefix /\
  String.append (Mme.model_data_prefix bucket s3_prefix) "model2.tar.gz" =
    Mme.output_2 bucket s3_prefix /\
  String.append (Mme.model_data_prefix bucket s3_prefix) "model3.tar.gz" =
    Mme.output_3 bucket s3_prefix.
Proof.
  unfold Mme.model_data_prefix, Mme.output_1, Mme.output_2, Mme.output_3.
  rewrite !string_append_assoc; repeat split.
Qed.

Lemma outputs_distinct bucket s3_prefix :
  String.eqb (Mme.output_1 bucket s3_prefix) (Mme.output_2 bucket s3_prefix) = false /\
  String.eqb (Mme.output_1 bucket s3_prefix) (Mme.output_3 bucket s3_prefix) = false /\
  String.eqb (Mme.output_2 bucket s3_prefix) (Mme.output_3 bucket s3_prefix) = false.
Proof.
  unfold Mme.output_1, Mme.output_2, Mme.output_3.
  repeat split; apply String.eqb_neq; intro H;
    repeat apply Lemmas.append_cancel_l in H; discriminate.
Qed.

Lemma model_2_not_output_1 bucket s3_prefix best_job :
  String.eqb (Mme.model_2 bucket best_job) (Mme.output_1 bucket s3_prefix) = false.
Proof.
  apply String.eqb_neq; unfold Mme.model_2, Mme.output_1; intro H.
  do 3 apply Lemmas.append_cancel_l in H.
  apply (f_equal (fun x => rev (list_ascii_of_string x))) in H.
  rewrite !Lemmas.list_ascii_append, !rev_app_distr in H.
  simpl in H; discriminate H.
Qed.

(** X7: after the deployment notebook's three [aws s3 cp] cells, the
    multi-model endpoint serves, for [TargetModel] ['model1.tar.gz'] and
    ['model3.tar.gz'], the hosted-training artifact [model_1], and for
    ['model2.tar.gz'] the tuner's best-job artifact; this needs both source
    artifacts to exist and [model_1] not to be the second copy's target. *)
Theorem mme_target_models {A} (s : Mme.s3 A) bucket s3_prefix model_1 best_job o1 o2 :
  s model_1 = Some o1 -> s (Mme.model_2 bucket best_job) = Some o2 ->
  model_1 <> Mme.output_2 bucket s3_prefix ->
  let s' := Mme.copy_cells s bucket s3_prefix model_1 best_job in
  Mme.target_model s' bucket s3_prefix "model1.tar.gz" = Some o1 /\
  Mme.target_model s' bucket s3_prefix "model2.tar.gz" = Some o2 /\
  Mme.target_model s' bucket s3_prefix "model3.tar.gz" = Some o1.
Proof.
  intros H1 H2 Hne; cbv zeta.
  destruct (target_is_output bucket s3_prefix) as [T1 [T2 T3]].
  destruct (outputs_distinct bucket s3_prefix) as [E12 [E13 E23]].
  pose proof (model_2_not_output_1 bucket s3_prefix best_job) as E21.
  assert (E1 : String.eqb model_1 (Mme.output_2 bucket s3_prefix) = false)
    by (apply String.eqb_neq; exact Hne).
  unfold Mme.target_model, Mme.copy_cells; rewrite T1, T2, T3.
  set (s1 := Mme.s3_cp s model_1 (Mme.output_1 bucket s3_prefix)).
  assert (S1m1 : s1 model_1 = Some o1).
  { unfold s1; rewrite (s3_cp_at _ _ _ _ _ H1).
    destruct (String.eqb model_1 (Mme.output_1 bucket s3_prefix));
      [reflexivity | exact H1]. }
  assert (S1m2 : s1 (Mme.model_2 bucket best_job) = Some o2).
  { unfold s1; rewrite (s3_cp_at _ _ _ _ _ H1), E21; exact H2. }
  set (s2 := Mme.s3_cp s1 (Mme.model_2 bucket best_job) (Mme.output_2 bucket s3_prefix)).
  assert (S2m1 : s2 model_1 = Some o1).
  { unfold s2; rewrite (s3_cp_at _ _ _ _ _ S1m2), E1; exact S1m1. }
  rewrite !(s3_cp_at _ _ _ _ _ S2m1), E13, E23, String.eqb_refl.
  unfold s2; rewrite !(s3_cp_at _ _ _ _ _ S1m2), E12, String.eqb_refl.
  unfold s1; rewrite (s3_cp_at _ _ _ _ _ H1), String.eqb_refl.
  repeat split.
Qed.

Lemma mme_target_models_witness :
  let s := fun q => if String.eqb q "s3://b/job-1/output/model.tar.gz" then Some 1
                    else if String.eqb q "s3://b/job-2/output/model.tar.gz" then Some 2
                    else None in
  let s' := Mme.copy_cells s "b" "p" "s3://b/job-1/output/model.tar.gz" "job-2" in
  Mme.target_model s' "b" "p" "model1.tar.gz" = Some 1 /\
  Mme.target_model s' "b" "p" "model2.tar.gz" = Some 2 /\
  Mme.target_model s' "b" "p" "model3.tar.gz" = Some 1.
Proof.
  apply mme_target_models; [reflexivity | reflexivity | discriminate].
Defined.

(** ** Reading the captured predictions back *)

Lemma rev_app_match {X Y} (l1 l2 : list X) (a : Y) (f : X -> Y) :
  match rev (l1 ++ l2) with [] => a | p :: _ => f p end =
  match rev l2 with
  | [] => match rev l1 with [] => a | p :: _ => f p end
  | p :: _ => f p
  end.
Proof. rewrite rev_app_distr; destruct (rev l2); reflexivity. Qed.

Lemma inner_walk_loop read root files (acc : option (list string)) :
  fold_left (fun acc file =>
               if String.eqb file ".DS_Store" then acc
               else Some (read (Preprocess.path_join root file))) files acc =
  match rev (map (Preprocess.path_join root)
                 (filter (fun f => negb (String.eqb f ".DS_Store")) files)) with
  | [] => acc
  | p :: _ => Some (read p)
  end.
Proof.
  induction files as [| file files IH] using rev_ind; [reflexivity |].
  rewrite fold_left_app, filter_app, map_app, rev_app_match, IH; simpl.
  destruct (String.eqb file ".DS_Store"); reflexivity.
Qed.

Lemma walk_loop_last read walk rpf :
  Capture.walk_loop read walk rpf =
  match rev (Capture.opened walk) with [] => rpf | p :: _ => Some (read p) end.
Proof.
  unfold Capture.walk_loop, Capture.opened.
  induction walk as [| [[root dirs] files] walk IH] using rev_ind; [reflexivity |].
  rewrite fold_left_app; cbn [fold_left].
  rewrite inner_walk_loop, flat_map_app, rev_app_match; cbn [flat_map].
  rewrite app_nil_r.
  destruct (rev (map (Preprocess.path_join root) _)); [exact IH | reflexivity].
Qed.

(** X8: a capture-reading cell keeps only the last file the [os.walk] loop
    opens: when the files opened (every entry but ['.DS_Store']) end with
    [p], [requests_predictions_file] is the lines of [p] and the predictions
    are parsed from those lines alone, whatever the earlier files hold. *)
Theorem capture_reads_last_file {B} read (extract : string -> option B) walk rpf pre p :
  Capture.opened walk = pre ++ [p] ->
  Capture.capture_cell read extract walk rpf =
  (Some (read p), Capture.predictions_of extract (Some (read p))).
Proof.
  intro H; unfold Capture.capture_cell; rewrite walk_loop_last, H, rev_app_distr.
  reflexivity.
Qed.

Lemma capture_reads_last_file_witness :
  Capture.opened [("./data/model_monitor/Variant1", [],
                   ["a.jsonl"; ".DS_Store"; "b.jsonl"])] =
    ["./data/model_monitor/Variant1/a.jsonl"] ++ ["./data/model_monitor/Variant1/b.jsonl"] /\
  Capture.capture_cell (fun f => [f]) (fun l => Some l)
    [("./data/model_monitor/Variant1", [], ["a.jsonl"; ".DS_Store"; "b.jsonl"])] None =
  (Some ["./data/model_monitor/Variant1/b.jsonl"],
   Capture.predictions_of (fun l => Some l) (Some ["./data/model_monitor/Variant1/b.jsonl"])).
Proof.
  split; [reflexivity |].
  apply (capture_reads_last_file (fun f => [f]) (fun l => Some l) _ None
           ["./data/model_monitor/Variant1/a.jsonl"]
           "./data/model_monitor/Variant1/b.jsonl").
  reflexivity.
Defined.

(** X9: if the Variant2 walk opens no file, the Variant2 cell keeps the
    [requests_predictions_file] left by the Variant1 cell, and
    [variant2_predictions] equals [variant1_predictions]. *)
Theorem variant2_reuses_variant1 {B} read (extract : string -> option B) walk1 walk2 rpf :
  Capture.opened walk2 = [] ->
  let '(rpf1, preds1) := Capture.capture_cell read extract walk1 rpf in
  let '(rpf2, preds2) := Capture.capture_cell read extract walk2 rpf1 in
  rpf2 = rpf1 /\ preds2 = preds1.
Proof.
  intro H.
  destruct (Capture.capture_cell read extract walk1 rpf) as [rpf1 preds1] eqn:E1.
  unfold Capture.capture_cell in *; injection E1 as <- <-.
  rewrite (walk_loop_last read walk2), H; split; reflexivity.
Qed.

Lemma variant2_reuses_variant1_witness :
  Capture.opened [("./data/model_monitor/Variant2", [], [".DS_Store"])] = [] /\
  let '(rpf1, preds1) :=
    Capture.capture_cell (fun f => [f]) (fun l => Some l)
      [("./data/model_monitor/Variant1", [], ["a.jsonl"])] None in
  let '(rpf2, preds2) :=
    Capture.capture_cell (fun f => [f]) (fun l => Some l)
      [("./data/model_monitor/Variant2", [], [".DS_Store"])] rpf1 in
  rpf2 = rpf1 /\ preds2 = preds1.
Proof.
  split; [reflexivity |].
  apply variant2_reuses_variant1; reflexivity.
Defined.

Lemma list_loop_S {X} n (f : nat -> option X) :
  Capture.list_loop (S n) f =
  match Capture.list_loop n f with
  | None => None
  | Some out => match f n with None => None | Some v => Some (out ++ [v]) end
  end.
Proof. unfold Capture.list_loop; rewrite seq_S, fold_left_app; reflexivity. Qed.

Lemma list_loop_none {X} n (f : nat -> option X) :
  Capture.list_loop n f = None <-> exists i, (i < n)%nat /\ f i = None.
Proof.
  induction n as [| n IH].
  - split; [discriminate | intros [i [Hi _]]; lia].
  - rewrite list_loop_S; destruct (Capture.list_loop n f) as [out |] eqn:E.
    + destruct (f n) eqn:Fn.
      * split; [discriminate |]; intros [i [Hi Hf]].
        destruct (Nat.eq_dec i n) as [-> | Hne]; [congruence |].
        assert (Hn : Some out = None)
          by (apply IH; exists i; split; [lia | exact Hf]).
        discriminate Hn.
      * split; [intros _; exists n; split; [lia | exact Fn] | reflexivity].
    + split; [intros _ | reflexivity].
      destruct (proj1 IH eq_refl) as [i [Hi Hf]]; exists i; split; [lia | exact Hf].
Qed.

Lemma list_loop_some {X} n (f : nat -> option X) g :
  (forall i, (i < n)%nat -> f i = Some (g i)) ->
  Capture.list_loop n f = Some (map g (seq 0 n)).
Proof.
  induction n as [| n IH]; intro H; [reflexivity |].
  rewrite list_loop_S, IH by (intros; apply H; lia).
  rewrite H by lia; rewrite seq_S, map_app; reflexivity.
Qed.

Section Errors.
Open Scope R_scope.

(** X10: [errors_var = [ground_truth[i] - variant_predictions[i] for i in
    range(len(ground_truth))]] raises [IndexError] exactly when there are
    fewer predictions than ground-truth values; otherwise it is the list of
    differences at each index of [ground_truth], and surplus predictions are
    ignored. *)
Theorem errors_index_error (ground_truth preds : list R) :
  Capture.errors ground_truth preds =
  if Nat.ltb (List.length preds) (List.length ground_truth) then None
  else Some (map (fun i => nth i ground_truth 0 - nth i preds 0)
                 (seq 0 (List.length ground_truth))).
Proof.
  unfold Capture.errors.
  destruct (Nat.ltb_spec (List.length preds) (List.length ground_truth)) as [Hlt | Hge].
  - apply list_loop_none; exists (List.length preds); split; [exact Hlt |].
    rewrite (nth_error_nth' ground_truth 0 Hlt).
    rewrite (proj2 (nth_error_None preds (List.length preds)) (Nat.le_refl _)).
    reflexivity.
  - apply list_loop_some; intros i Hi.
    rewrite (nth_error_nth' ground_truth 0 Hi), (nth_error_nth' preds 0) by lia.
    reflexivity.
Qed.

End Errors.

Section DictLemmas.
Context {V : Type}.

Lemma lookup_not_key (k : string) (d : PyDict.dict V) :
  ~ In k (map fst d) -> PyDict.lookup k d = None.
Proof.
  induction d as [| [k' v] r IH]; simpl; intro H; [reflexivity |].
  destruct (String.eqb_spec k k') as [-> | _]; [tauto | apply IH; tauto].
Qed.

Lemma lookup_py_in_false (k : string) (d : PyDict.dict V) :
  PyDict.py_in k d = false -> PyDict.lookup k d = None.
Proof.
  unfold PyDict.py_in; induction d as [| [k' v] r IH]; simpl; intro H; [reflexivity |].
  apply orb_false_iff in H; destruct H as [H1 H2]; rewrite H1; apply IH, H2.
Qed.

Lemma lookup_remove_other (k k' : string) (d : PyDict.dict V) :
  k' <> k -> PyDict.lookup k' (PyDict.remove_key k d) = PyDict.lookup k' d.
Proof.
  intro Hne; induction d as [| [k0 v] r IH]; simpl; [reflexivity |].
  destruct (String.eqb_spec k k0) as [<- | _]; simpl.
  - destruct (String.eqb_spec k' k); [contradiction | reflexivity].
  - rewrite IH; reflexivity.
Qed.

Lemma lookup_remove_same (k : string) (d : PyDict.dict V) :
  NoDup (map fst d) -> PyDict.lookup k (PyDict.remove_key k d) = None.
Proof.
  induction d as [| [k0 v] r IH]; simpl; intro Hd; [reflexivity |].
  inversion Hd as [| ? ? Hnot Hr]; subst.
  destruct (String.eqb_spec k k0) as [<- | Hne]; simpl.
  - apply lookup_not_key, Hnot.
  - destruct (String.eqb_spec k k0); [contradiction | apply IH, Hr].
Qed.

Lemma lookup_setitem (k k' : string) (v : V) (d : PyDict.dict V) :
  PyDict.lookup k' (PyDict.setitem k v d) =
  if String.eqb k' k then Some v else PyDict.lookup k' d.
Proof.
  induction d as [| [k0 v0] r IH]; simpl; [reflexivity |].
  destruct (String.eqb_spec k k0) as [<- | Hne]; simpl.
  - destruct (String.eqb k' k); reflexivity.
  - rewrite IH; destruct (String.eqb_spec k' k) as [-> | _]; [| reflexivity].
    destruct (String.eqb_spec k k0); [contradiction | reflexivity].
Qed.

End DictLemmas.

(** X11: the training notebook removes the estimator from
    [tuner_parameters] before storing it, which never raises, and leaves no
    ['estimator'] key; putting a new estimator back in the deployment notebook
    gives a dictionary that maps ['estimator'] to it and every other key to
    its original value (Python dictionaries have distinct keys). *)
Theorem tuner_parameters_round_trip {V} (d : PyDict.dict V) (e : V) :
  NoDup (map fst d) ->
  exists d', PyDict.strip_estimator d = Some d' /\
    PyDict.lookup "estimator" d' = None /\
    forall k, PyDict.lookup k (PyDict.restore_estimator e d') =
      if String.eqb k "estimator" then Some e else PyDict.lookup k d.
Proof.
  intro Hd; unfold PyDict.strip_estimator, PyDict.delitem, PyDict.restore_estimator.
  destruct (PyDict.py_in "estimator" d) eqn:E.
  - eexists; split; [reflexivity |]; split; [apply lookup_remove_same, Hd |].
    intro k; rewrite lookup_setitem.
    destruct (String.eqb_spec k "estimator") as [_ | Hne]; [reflexivity |].
    apply lookup_remove_other, Hne.
  - eexists; split; [reflexivity |]; split; [apply lookup_py_in_false, E |].
    intro k; apply lookup_setitem.
Qed.

Lemma tuner_parameters_round_trip_witness :
  exists d', PyDict.strip_estimator PyDict.tuner_parameters = Some d' /\
    PyDict.lookup "estimator" d' = None /\
    forall k, PyDict.lookup k (PyDict.restore_estimator (PyDict.AObj "estimator'") d') =
      if String.eqb k "estimator" then Some (PyDict.AObj "estimator'")
      else PyDict.lookup k PyDict.tuner_parameters.
Proof.
  apply tuner_parameters_round_trip.
  simpl; repeat constructor; simpl; intuition discriminate.
Defined.

(** X12: when [param_values] is not defined (the notebook leaves its
    dictionary inside a string literal), the connection cell stops with
    [NameError] at the first argument, and [snowflake.connector.connect] is
    never called. *)
Theorem connect_cell_name_error (sdk : Connect.sdk_env) (g : Connect.globals) :
  sdk "import snowflake.connector" = None ->
  g "param_values" = None ->
  Connect.exec_cell sdk g Connect.connect_cell = ([], inl "NameError").
Proof.
  intros Himp Hg; unfold Connect.connect_cell; simpl.
  rewrite Himp; simpl; unfold Connect.bind_global; simpl.
  rewrite Hg; reflexivity.
Qed.

Lemma connect_cell_name_error_witness :
  Connect.exec_cell (fun _ => None) (fun _ => None) Connect.connect_cell = ([], inl "NameError").
Proof. apply connect_cell_name_error; reflexivity. Defined.

(** X13: when [param_values] is a dictionary holding the six
    [/SNOWFLAKE/...] keys and neither the import nor the connection raises,
    the cell makes exactly one SDK call, [snowflake.connector.connect], binds
    its result to [ctx], and leaves [param_values] as it was. *)
Theorem connect_cell_connects (sdk : Connect.sdk_env) (g : Connect.globals) d :
  sdk "import snowflake.connector" = None ->
  sdk "snowflake.connector.connect" = None ->
  g "param_values" = Some (Connect.PVDict d) ->
  Forall (fun k => Connect.dict_lookup k d <> None)
    ["/SNOWFLAKE/USER_ID"; "/SNOWFLAKE/PASSWORD"; "/SNOWFLAKE/ACCOUNT_ID";
     "/SNOWFLAKE/WAREHOUSE"; "/SNOWFLAKE/DATABASE"; "/SNOWFLAKE/SCHEMA"] ->
  exists g', Connect.exec_cell sdk g Connect.connect_cell =
               (["snowflake.connector.connect"], inr g') /\
    g' "ctx" = Some (Connect.PVObj "snowflake.connector.connect") /\
    g' "param_values" = Some (Connect.PVDict d).
Proof.
  intros Himp Hconn Hg Hkeys.
  assert (Hl : forall k, In k ["/SNOWFLAKE/USER_ID"; "/SNOWFLAKE/PASSWORD"; "/SNOWFLAKE/ACCOUNT_ID";
       "/SNOWFLAKE/WAREHOUSE"; "/SNOWFLAKE/DATABASE"; "/SNOWFLAKE/SCHEMA"] ->
            exists v, Connect.dict_lookup k d = Some v).
  { intros k Hk; rewrite Forall_forall in Hkeys; specialize (Hkeys k Hk).
    destruct (Connect.dict_lookup k d) as [v |]; [exists v; reflexivity | contradiction]. }
  destruct (Hl "/SNOWFLAKE/USER_ID") as [v1 E1]; [simpl; tauto |].
  destruct (Hl "/SNOWFLAKE/PASSWORD") as [v2 E2]; [simpl; tauto |].
  destruct (Hl "/SNOWFLAKE/ACCOUNT_ID") as [v3 E3]; [simpl; tauto |].
  destruct (Hl "/SNOWFLAKE/WAREHOUSE") as [v4 E4]; [simpl; tauto |].
  destruct (Hl "/SNOWFLAKE/DATABASE") as [v5 E5]; [simpl; tauto |].
  destruct (Hl "/SNOWFLAKE/SCHEMA") as [v6 E6]; [simpl; tauto |].
  unfold Connect.connect_cell; simpl.
  rewrite Himp; simpl; unfold Connect.bind_global; simpl.
  rewrite Hg; simpl.
  repeat match goal with H : Connect.dict_lookup _ d = Some _ |- _ => rewrite H; clear H end.
  simpl; rewrite Hconn; simpl.
  eexists; split; [reflexivity |]; split; [reflexivity |]; simpl; exact Hg.
Qed.

Lemma connect_cell_connects_witness :
  let d := map (fun k => (k, Connect.PVStr "x"))
    ["/SNOWFLAKE/USER_ID"; "/SNOWFLAKE/PASSWORD"; "/SNOWFLAKE/ACCOUNT_ID";
     "/SNOWFLAKE/WAREHOUSE"; "/SNOWFLAKE/DATABASE"; "/SNOWFLAKE/SCHEMA"] in
  exists g', Connect.exec_cell (fun _ => None)
               (Connect.bind_global (fun _ => None) "param_values" (Connect.PVDict d))
               Connect.connect_cell =
             (["snowflake.connector.connect"], inr g') /\
    g' "ctx" = Some (Connect.PVObj "snowflake.connector.connect") /\
    g' "param_values" = Some (Connect.PVDict d).
Proof.
  intro d; apply connect_cell_connects; try reflexivity.
  unfold d; repeat constructor; simpl; discriminate.
Defined.

Lemma index_of_none_iff (c : string) l :
  Frame.index_of String.eqb c l = None <-> existsb (String.eqb c) l = false.
Proof.
  induction l as [| y r IH]; simpl; [split; reflexivity |].
  destruct (String.eqb c y); simpl; [split; discriminate |].
  rewrite <- IH; destruct (Frame.index_of String.eqb c r); simpl; split; congruence.
Qed.

Lemma index_of_not_In (c : string) l :
  ~ In c l -> Frame.index_of String.eqb c l = None.
Proof.
  induction l as [| y r IH]; simpl; intro H; [reflexivity |].
  destruct (String.eqb_spec c y) as [-> | _]; [tauto |].
  rewrite IH by tauto; reflexivity.
Qed.

Lemma index_of_app {A} (eqb : A -> A -> bool) x l1 l2 :
  Frame.index_of eqb x (l1 ++ l2) =
  match Frame.index_of eqb x l1 with
  | Some i => Some i
  | None => option_map (Nat.add (List.length l1)) (Frame.index_of eqb x l2)
  end.
Proof.
  induction l1 as [| y r IH]; simpl.
  - destruct (Frame.index_of eqb x l2); reflexivity.
  - rewrite IH; destruct (eqb x y); [reflexivity |].
    destruct (Frame.index_of eqb x r); simpl; [reflexivity |].
    destruct (Frame.index_of eqb x l2); reflexivity.
Qed.

Lemma index_of_range s n r :
  Frame.index_of Z.eqb r (map Z.of_nat (seq s n)) =
  if (Z.of_nat s <=? r)%Z && (r <? Z.of_nat (s + n))%Z then Some (Z.to_nat r - s)%nat
  else None.
Proof.
  revert s; induction n as [| n IH]; intro s; simpl.
  - destruct (Z.leb_spec (Z.of_nat s) r), (Z.ltb_spec r (Z.of_nat (s + 0)));
      simpl; try reflexivity; lia.
  - rewrite IH.
    destruct (Z.eqb_spec r (Z.of_nat s)) as [-> | Hne].
    + rewrite Z.leb_refl, Nat2Z.id, Nat.sub_diag.
      destruct (Z.ltb_spec (Z.of_nat s) (Z.of_nat (s + S n))); [reflexivity | lia].
    + assert (Hr : (0 <= r)%Z -> Z.of_nat (Z.to_nat r) = r) by (intro; apply Z2Nat.id; lia).
      destruct (Z.leb_spec (Z.of_nat (S s)) r), (Z.ltb_spec r (Z.of_nat (S s + n))),
        (Z.leb_spec (Z.of_nat s) r), (Z.ltb_spec r (Z.of_nat (s + S n)));
        simpl; try reflexivity; try lia.
      f_equal; lia.
Qed.

(** X14: on an empty result set ([X0] among the columns), the mutation
    cell's [df.loc[0, 'X0'] = temp] adds a row labelled 0: the index becomes
    [[0]], [X0] holds [temp] there, and every other column holds a missing
    value. *)
Theorem mutation_on_empty_result cols draws temp w :
  In "X0" cols ->
  Frame.mutate_cell (Frame.fetch_pandas_all cols []) draws = Some (temp, w) ->
  (0 <= temp <= 100)%Z /\ Frame.columns w = cols /\ Frame.index w = [0%Z] /\
  forall r c, Frame.cell w r c =
    if Z.eqb r 0 && existsb (String.eqb c) cols then
      Some (if String.eqb c "X0" then Frame.VInt temp else Frame.VNull)
    else None.
Proof.
  intros Hx Hm.
  unfold Frame.mutate_cell, Frame.randint in Hm.
  destruct (Frame.randbelow (100 - 0 + 1) draws) as [r0 |] eqn:Hr; [| discriminate].
  simpl in Hm; injection Hm as <- <-.
  apply Lemmas.randbelow_range in Hr.
  destruct (Lemmas.index_of_In _ String.eqb String.eqb_eq "X0" cols Hx) as [j Hj].
  unfold Frame.loc_set, Frame.fetch_pandas_all; cbn [Frame.index Frame.columns Frame.data].
  rewrite Hj; cbn.
  split; [lia |]; split; [reflexivity |]; split; [reflexivity |].
  intros r c; unfold Frame.cell; cbn [Frame.index Frame.columns Frame.data Frame.index_of].
  destruct (Z.eqb r 0); cbn; [| reflexivity].
  destruct (Frame.index_of String.eqb c cols) as [j' |] eqn:Hc.
  - destruct (existsb (String.eqb c) cols) eqn:Ex;
      [| apply index_of_none_iff in Ex; congruence].
    assert (Hlt : (j' < List.length cols)%nat).
    { apply nth_error_Some.
      rewrite (Lemmas.index_of_nth _ String.eqb String.eqb_eq _ _ _ Hc); discriminate. }
    rewrite Lemmas.nth_error_upd, nth_error_repeat by exact Hlt; simpl.
    destruct (Nat.eqb_spec j j') as [<- | Hne].
    + rewrite (Lemmas.index_of_functional _ String.eqb String.eqb_eq _ _ _ _ Hc Hj).
      reflexivity.
    + destruct (String.eqb_spec c "X0") as [-> | _]; [congruence | reflexivity].
  - apply index_of_none_iff in Hc; rewrite Hc; reflexivity.
Qed.

Lemma mutation_on_empty_result_witness :
  (0 <= 42 <= 100)%Z /\ Frame.columns (Frame.mkF ["X0"; "Y"] [0%Z] [[Frame.VInt 42; Frame.VNull]])
    = ["X0"; "Y"] /\
  Frame.index (Frame.mkF ["X0"; "Y"] [0%Z] [[Frame.VInt 42; Frame.VNull]]) = [0%Z] /\
  forall r c, Frame.cell (Frame.mkF ["X0"; "Y"] [0%Z] [[Frame.VInt 42; Frame.VNull]]) r c =
    if Z.eqb r 0 && existsb (String.eqb c) ["X0"; "Y"] then
      Some (if String.eqb c "X0" then Frame.VInt 42 else Frame.VNull)
    else None.
Proof.
  apply (mutation_on_empty_result ["X0"; "Y"] [Z.shiftl 42 25]); [simpl; tauto |].
  vm_compute; reflexivity.
Defined.

(** X15: when the result set has rows but no [X0] column, the mutation
    cell's [df.loc[0, 'X0'] = temp] appends a column [X0] and keeps the
    index: the new column holds [temp] in row 0 and a missing value in every
    other row, and every cell of the fetched columns is unchanged. *)
Theorem mutation_adds_missing_column cols rows draws temp w :
  rows <> [] -> ~ In "X0" cols ->
  Forall (fun row => List.length row = List.length cols) rows ->
  Frame.mutate_cell (Frame.fetch_pandas_all cols rows) draws = Some (temp, w) ->
  (0 <= temp <= 100)%Z /\
  Frame.columns w = cols ++ ["X0"] /\
  Frame.index w = Frame.index (Frame.fetch_pandas_all cols rows) /\
  forall r c, Frame.cell w r c =
    if String.eqb c "X0" then
      (if (0 <=? r)%Z && (r <? Z.of_nat (List.length rows))%Z then
         Some (if Z.eqb r 0 then Frame.VInt temp else Frame.VNull)
       else None)
    else Frame.cell (Frame.fetch_pandas_all cols rows) r c.
Proof.
  intros Hrows Hx Hrect Hm.
  unfold Frame.mutate_cell, Frame.randint in Hm.
  destruct (Frame.randbelow (100 - 0 + 1) draws) as [r0 |] eqn:Hr; [| discriminate].
  simpl in Hm; injection Hm as <- <-.
  apply Lemmas.randbelow_range in Hr.
  assert (Hlen : forall k row, nth_error rows k = Some row ->
            List.length row = List.length cols).
  { intros k row Hk; rewrite Forall_forall in Hrect; apply Hrect, (nth_error_In _ _ Hk). }
  destruct rows as [| row0 rest]; [contradiction |].
  unfold Frame.loc_set, Frame.fetch_pandas_all; cbn [Frame.index Frame.columns Frame.data].
  rewrite (index_of_not_In _ _ Hx).
  change (Frame.index_of Z.eqb 0%Z (map Z.of_nat (seq 0 (List.length (row0 :: rest)))))
    with (Some O); cbv iota.
  split; [lia |]; split; [reflexivity |]; split; [reflexivity |].
  intros r c; unfold Frame.cell; cbn [Frame.index Frame.columns Frame.data].
  rewrite !index_of_range, index_of_app; cbn [Z.of_nat Nat.add].
  destruct (String.eqb_spec c "X0") as [-> | Hc].
  - rewrite (index_of_not_In _ _ Hx).
    change (Frame.index_of String.eqb "X0" ["X0"]) with (Some O); cbn [option_map].
    destruct (Z.leb_spec 0 r), (Z.ltb_spec r (Z.of_nat (List.length (row0 :: rest))));
      simpl andb; try reflexivity.
    rewrite Nat.sub_0_r, Nat.add_0_r; cbn [map Frame.upd].
    destruct (Z.to_nat r) as [| k] eqn:Ek.
    + assert (r = 0%Z) as -> by lia; cbn [Z.eqb nth_error nth].
      rewrite nth_error_app2 by (rewrite (Hlen O row0 eq_refl); lia).
      rewrite (Hlen O row0 eq_refl), Nat.sub_diag; reflexivity.
    + cbn [nth_error]; rewrite nth_error_map.
      destruct (nth_error rest k) as [row |] eqn:Erow.
      2: { apply nth_error_None in Erow; simpl List.length in *; lia. }
      destruct (Z.eqb_spec r 0) as [-> | _]; [simpl in Ek; discriminate |]; cbn [option_map].
      rewrite nth_error_app2 by (rewrite (Hlen (S k) row Erow); lia).
      rewrite (Hlen (S k) row Erow), Nat.sub_diag; reflexivity.
  - assert (Hn : Frame.index_of String.eqb c ["X0"] = None)
      by (simpl; destruct (String.eqb_spec c "X0"); [contradiction | reflexivity]).
    rewrite Hn.
    destruct (Frame.index_of String.eqb c cols) as [j |] eqn:Hj.
    2: { destruct (_ && _); reflexivity. }
    assert (Hlt : (j < List.length cols)%nat).
    { apply nth_error_Some.
      rewrite (Lemmas.index_of_nth _ String.eqb String.eqb_eq _ _ _ Hj); discriminate. }
    destruct (_ && _); [| reflexivity].
    rewrite Lemmas.nth_error_upd, nth_error_map, Nat.sub_0_r.
    destruct (nth_error (row0 :: rest) (Z.to_nat r)) as [row |] eqn:Ek.
    2: { destruct (Nat.eqb 0 (Z.to_nat r)); reflexivity. }
    destruct (Nat.eqb_spec 0 (Z.to_nat r)) as [E0 | E0]; cbn [option_map].
    + rewrite <- E0 in Ek; simpl in Ek; injection Ek as <-; simpl nth.
      rewrite nth_error_app1 by (rewrite (Hlen O row0 eq_refl); exact Hlt); reflexivity.
    + rewrite nth_error_app1 by (rewrite (Hlen _ row Ek); exact Hlt); reflexivity.
Qed.

Lemma mutation_adds_missing_column_witness :
  let w := Frame.mkF ["Y"; "X0"] [0%Z; 1%Z]
             [[Frame.VStr "a"; Frame.VInt 42]; [Frame.VStr "b"; Frame.VNull]] in
  (0 <= 42 <= 100)%Z /\
  Frame.columns w = ["Y"] ++ ["X0"] /\
  Frame.index w = Frame.index (Frame.fetch_pandas_all ["Y"] [[Frame.VStr "a"]; [Frame.VStr "b"]]) /\
  forall r c, Frame.cell w r c =
    if String.eqb c "X0" then
      (if (0 <=? r)%Z && (r <? Z.of_nat 2)%Z then
         Some (if Z.eqb r 0 then Frame.VInt 42 else Frame.VNull)
       else None)
    else Frame.cell (Frame.fetch_pandas_all ["Y"] [[Frame.VStr "a"]; [Frame.VStr "b"]]) r c.
Proof.
  intro w.
  apply (mutation_adds_missing_column ["Y"] [[Frame.VStr "a"]; [Frame.VStr "b"]]
           [Z.shiftl 42 25]).
  - discriminate.
  - simpl; intros [H | []]; discriminate.
  - repeat constructor.
  - vm_compute; reflexivity.
Defined.

Lemma kind_eqb_eq a b : Pipeline.kind_eqb a b = true <-> a = b.
Proof.
  destruct a, b; simpl; try (split; congruence).
  rewrite String.eqb_eq; split; congruence.
Qed.

Lemma res_eqb_eq a b : Pipeline.res_eqb a b = true <-> a = b.
Proof.
  destruct a as [k n], b as [k' n']; unfold Pipeline.res_eqb; simpl.
  rewrite andb_true_iff, kind_eqb_eq, String.eqb_eq.
  split; [intros [-> ->]; reflexivity | intro H; injection H as -> ->; split; reflexivity].
Qed.

Lemma present_In r reg : Pipeline.present r reg = true <-> In r reg.
Proof.
  unfold Pipeline.present; rewrite existsb_exists; split.
  - intros [x [Hx Hr]]; apply res_eqb_eq in Hr; subst; exact Hx.
  - intro H; exists r; split; [exact H | apply res_eqb_eq; reflexivity].
Qed.

Lemma taken_app r l1 l2 :
  Pipeline.taken r (l1 ++ l2) = Pipeline.taken r l1 || Pipeline.taken r l2.
Proof. unfold Pipeline.taken; apply existsb_app. Qed.

Lemma taken_self r reg : In r reg -> Pipeline.taken r reg = true.
Proof.
  intro H; unfold Pipeline.taken; apply existsb_exists; exists r; split; [exact H |].
  destruct r as [[] n]; unfold Pipeline.same_slot; simpl;
    rewrite String.eqb_refl; try reflexivity; apply String.eqb_refl.
Qed.

Lemma run_step_some reg s reg' :
  Pipeline.run_step reg s = Some reg' ->
  reg' = reg ++ Pipeline.r_creates s /\
  forallb (Pipeline.creatable reg) (Pipeline.r_creates s) = true.
Proof.
  unfold Pipeline.run_step.
  destruct (forallb _ _ && forallb _ _) eqn:E; [| discriminate].
  intro H; injection H as <-; apply andb_true_iff in E; split; [reflexivity | tauto].
Qed.

Lemma execute_success reg c ei reg' :
  Pipeline.execute reg c ei = (reg', None) ->
  reg' = reg ++ List.concat (map Pipeline.r_creates (Pipeline.workflow_definition c ei)) /\
  Pipeline.taken (Pipeline.Endpoint (Pipeline.ModelName ei), Pipeline.EndpointName ei) reg
    = false.
Proof.
  unfold Pipeline.execute, Pipeline.workflow_definition; cbn [Pipeline.run_chain].
  destruct (Pipeline.run_step reg _) as [r1 |] eqn:E1; [| discriminate].
  destruct (Pipeline.run_step r1 _) as [r2 |] eqn:E2; [| discriminate].
  destruct (Pipeline.run_step r2 _) as [r3 |] eqn:E3; [| discriminate].
  destruct (Pipeline.run_step r3 _) as [r4 |] eqn:E4; [| discriminate].
  destruct (Pipeline.run_step r4 _) as [r5 |] eqn:E5; [| discriminate].
  intro H; injection H as <-.
  apply run_step_some in E1 as [-> _]; apply run_step_some in E2 as [-> _].
  apply run_step_some in E3 as [-> _]; apply run_step_some in E4 as [-> _].
  apply run_step_some in E5 as [-> Hc].
  split; [cbn [map List.concat]; rewrite <- !app_assoc; reflexivity |].
  cbn in Hc; rewrite andb_true_r in Hc; apply negb_true_iff in Hc.
  rewrite !taken_app in Hc; repeat rewrite orb_false_iff in Hc.
  destruct Hc as [[[[Hc _] _] _] _]; exact Hc.
Qed.

Lemma config_of_app en l1 l2 :
  Pipeline.config_of en (l1 ++ l2) =
  match Pipeline.config_of en l1 with
  | Some c => Some c
  | None => Pipeline.config_of en l2
  end.
Proof.
  induction l1 as [| [[] n] r IH]; simpl; try exact IH; [reflexivity |].
  destruct (String.eqb n en); [reflexivity | exact IH].
Qed.

Lemma config_of_free k en reg :
  Pipeline.taken (Pipeline.Endpoint k, en) reg = false -> Pipeline.config_of en reg = None.
Proof.
  unfold Pipeline.taken; induction reg as [| [[] n] r IH]; simpl; intro H;
    try reflexivity; apply orb_false_iff in H as [H1 H2]; try (apply IH, H2).
  destruct (String.eqb_spec n en) as [-> | _]; [| apply IH, H2].
  unfold Pipeline.same_slot in H1; simpl in H1; rewrite String.eqb_refl in H1; discriminate.
Qed.

(** X17: the processing job name is formatted once, when the step is built;
    so once an execution has succeeded, executing the same workflow again
    fails at its first step, "Preprocessing", whatever the new training job,
    model and endpoint names, and creates nothing. *)
Theorem reexecution_fails reg c ei ei' reg' :
  Pipeline.execute reg c ei = (reg', None) ->
  Pipeline.execute reg' c ei' = (reg', Some "Preprocessing").
Proof.
  intro H; destruct (execute_success _ _ _ _ H) as [Hreg _].
  assert (Ht : Pipeline.taken (Pipeline.ProcessingJob, Pipeline.sf_processing_job_name c) reg'
               = true).
  { apply taken_self; rewrite Hreg; apply in_or_app; right; simpl; left; reflexivity. }
  unfold Pipeline.execute, Pipeline.workflow_definition; cbn [Pipeline.run_chain].
  unfold Pipeline.run_step, Pipeline.creatable;
    cbn [Pipeline.r_creates Pipeline.processing_step forallb fst].
  rewrite Ht; cbn [negb andb]; rewrite andb_false_r; reflexivity.
Qed.

Lemma reexecution_fails_witness :
  let c := Pipeline.mkSetup "bucket" "prefix" "s3://bucket/raw"
             "s3://bucket/code/preprocessing.py" "processing-1" in
  let reg := [(Pipeline.S3Object, "s3://bucket/raw");
              (Pipeline.S3Object, "s3://bucket/code/preprocessing.py")] in
  let reg' := fst (Pipeline.execute reg c (Pipeline.mkInput "train-1" "model-1" "endpoint-1")) in
  Pipeline.execute reg' c (Pipeline.mkInput "train-2" "model-2" "endpoint-2") =
  (reg', Some "Preprocessing").
Proof.
  intros c reg reg'.
  apply (reexecution_fails reg c (Pipeline.mkInput "train-1" "model-1" "endpoint-1")).
  vm_compute; reflexivity.
Defined.

(** X18: after a successful execution, [delete_endpoint] on the execution's
    endpoint succeeds; afterwards no endpoint has that name and the endpoint
    configuration is gone, while the model and the training job the
    execution created remain. *)
Theorem delete_endpoint_after_execution reg c ei reg' :
  Pipeline.execute reg c ei = (reg', None) ->
  exists reg'', Pipeline.delete_endpoint (Pipeline.EndpointName ei) reg' = Some reg'' /\
    Pipeline.taken (Pipeline.Endpoint (Pipeline.ModelName ei), Pipeline.EndpointName ei) reg''
      = false /\
    Pipeline.present (Pipeline.EndpointConfig, Pipeline.ModelName ei) reg'' = false /\
    Pipeline.present (Pipeline.Model, Pipeline.ModelName ei) reg'' = true /\
    Pipeline.present (Pipeline.TrainingJob, Pipeline.TrainingJobName ei) reg'' = true.
Proof.
  intro H; destruct (execute_success _ _ _ _ H) as [Hreg Hfree]; subst reg'.
  unfold Pipeline.delete_endpoint.
  rewrite config_of_app, (config_of_free _ _ _ Hfree).
  cbn [Pipeline.workflow_definition map List.concat Pipeline.r_creates Pipeline.processing_step
       Pipeline.training_step Pipeline.model_step Pipeline.endpoint_config_step
       Pipeline.endpoint_step app Pipeline.config_of].
  rewrite String.eqb_refl.
  eexists; split; [reflexivity |].
  split; [| split; [| split]].
  - apply not_true_iff_false; intro Hs; unfold Pipeline.taken in Hs.
    apply existsb_exists in Hs as [x [Hx Hs]]; apply filter_In in Hx as [_ Hx].
    destruct x as [[] n]; unfold Pipeline.same_slot in Hs; simpl in Hs;
      rewrite ?andb_false_r in Hs; try discriminate.
    rewrite andb_true_r, String.eqb_sym in Hs; simpl in Hx; rewrite Hs in Hx; discriminate.
  - apply not_true_iff_false; intro Hp; apply present_In in Hp.
    apply filter_In in Hp as [Hp _]; apply filter_In in Hp as [_ Hp].
    rewrite (proj2 (res_eqb_eq _ _) eq_refl) in Hp; discriminate.
  - apply present_In, filter_In; split; [| reflexivity].
    apply filter_In; split; [| reflexivity].
    apply in_or_app; right; simpl; auto 10.
  - apply present_In, filter_In; split; [| reflexivity].
    apply filter_In; split; [| reflexivity].
    apply in_or_app; right; simpl; auto 10.
Qed.

Lemma delete_endpoint_after_execution_witness :
  let c := Pipeline.mkSetup "bucket" "prefix" "s3://bucket/raw"
             "s3://bucket/code/preprocessing.py" "processing-1" in
  let ei := Pipeline.mkInput "train-1" "model-1" "endpoint-1" in
  let reg := [(Pipeline.S3Object, "s3://bucket/raw");
              (Pipeline.S3Object, "s3://bucket/code/preprocessing.py")] in
  let reg' := fst (Pipeline.execute reg c ei) in
  exists reg'', Pipeline.delete_endpoint (Pipeline.EndpointName ei) reg' = Some reg'' /\
    Pipeline.taken (Pipeline.Endpoint (Pipeline.ModelName ei), Pipeline.EndpointName ei) reg''
      = false /\
    Pipeline.present (Pipeline.EndpointConfig, Pipeline.ModelName ei) reg'' = false /\
    Pipeline.present (Pipeline.Model, Pipeline.ModelName ei) reg'' = true /\
    Pipeline.present (Pipeline.TrainingJob, Pipeline.TrainingJobName ei) reg'' = true.
Proof.
  intros c ei reg reg'.
  apply (delete_endpoint_after_execution reg c ei).
  vm_compute; reflexivity.
Defined.

End Extras.
